(** * m5tab_vnc: the display update adapter and the touch/gesture orchestration

    A shallow embedding of [src/M5GFX_VNCDriver.cpp] (the [M5GFX_VNCDriver]
    class) and of the gesture and screen-switching code of [src/main.cpp].

    Conventions.
    - [uint32_t], [uint16_t], [uint8_t] and [int32_t] values are integers of
      [Z]; every arithmetic operation of the source is followed by the
      wrap-around of its C++ type ([u32], [u16], [i32]).
    - The draw surface ([M5GFX]) and the remote session ([arduinoVNC]) are
      external: a call to one of them is recorded, in program order, in the
      list of calls a function returns.
    - Undefined behaviour of the source (a division by zero, a read past
      the end of the pixel buffer) is a [Fault].
    - Output on [Serial] is left out. *)

From Stdlib Require Import ZArith List Bool Lia String.
Import ListNotations.
Open Scope Z_scope.

(** ** Fixed-width arithmetic *)

Module Word.

Definition u32 (z : Z) : Z := z mod 2 ^ 32.
Definition u16 (z : Z) : Z := z mod 2 ^ 16.

(** Two's-complement reading of the low 32 (16) bits. *)
Definition i32 (z : Z) : Z := (z + 2 ^ 31) mod 2 ^ 32 - 2 ^ 31.
Definition i16 (z : Z) : Z := (z + 2 ^ 15) mod 2 ^ 16 - 2 ^ 15.

Definition in_u32 (z : Z) : Prop := 0 <= z < 2 ^ 32.
Definition in_i16 (z : Z) : Prop := - 2 ^ 15 <= z < 2 ^ 15.

(** [(color >> 8) | (color << 8)] stored back into a [uint16_t]. *)
Definition swap16 (color : Z) : Z :=
  u16 (Z.lor (Z.shiftr color 8) (Z.shiftl color 8)).

(** [millis() - last] on [uint32_t]. *)
Definition elapsed (now last : Z) : Z := u32 (now - last).

End Word.

Import Word.

(** ** The draw surface *)

Module Gfx.

Inductive font := FreeSansBold18pt7b | FreeSansBold12pt7b | FreeSans12pt7b | FreeSans9pt7b.
Inductive datum := MC_DATUM | ML_DATUM.

(** The methods of [M5GFX] the program calls.  [readRect] and [pushImage]
    move pixels through a scratch buffer of the caller; the record keeps
    their geometry. *)
Inductive call :=
| startWrite
| endWrite
| setAddrWindow (x y w h : Z)
| writePixel (x y color : Z)
| fillRect (x y w h color : Z)
| readRect (x y w h : Z)
| pushImage (x y w h : Z)
| fillScreen (color : Z)
| setTextColor (color : Z)
| setTextSize (n : Z)
| setCursor (x y : Z)
| println (s : string)
| print (s : string)
| setTextDatum (d : datum)
| setFont (f : font)
| drawString (s : string) (x y : Z)
| fillCircle (x y r color : Z).

(** RGB565 colour constants of M5GFX. *)
Definition TFT_BLACK : Z := 0x0000.
Definition TFT_NAVY : Z := 0x000F.
Definition TFT_GREEN : Z := 0x07E0.
Definition TFT_CYAN : Z := 0x07FF.
Definition TFT_RED : Z := 0xF800.
Definition TFT_YELLOW : Z := 0xFFE0.
Definition TFT_WHITE : Z := 0xFFFF.
Definition TFT_LIGHTGREY : Z := 0xD69A.

(** The coordinates of the pixels a list of calls writes, in order. *)
Definition written (cs : list call) : list (Z * Z) :=
  flat_map (fun c => match c with writePixel x y _ => [(x, y)] | _ => [] end) cs.

Definition is_writePixel (c : call) : bool :=
  match c with writePixel _ _ _ => true | _ => false end.

End Gfx.

(** ** Results of code that can fault *)

Inductive fault := DivisionByZero | OutOfBounds.

Inductive result (A : Type) :=
| Ok (a : A)
| Fault (f : fault).
Arguments Ok {A} a.
Arguments Fault {A} f.

Definition bind {A B} (r : result A) (k : A -> result B) : result B :=
  match r with Ok a => k a | Fault f => Fault f end.

Notation "x <- r ;; k" := (bind r (fun x => k))
  (at level 61, r at next level, right associativity).

(** [a % b] and [a / b] on unsigned operands. *)
Definition umod (a b : Z) : result Z :=
  if b =? 0 then Fault DivisionByZero else Ok (a mod b).
Definition udiv (a b : Z) : result Z :=
  if b =? 0 then Fault DivisionByZero else Ok (a / b).

(** [pixels[i]] on a buffer of [uint16_t]. *)
Definition read16 (pixels : list Z) (i : Z) : result Z :=
  match nth_error pixels (Z.to_nat i) with
  | Some c => Ok c
  | None => Fault OutOfBounds
  end.

(** ** M5GFX_VNCDriver *)

Module Driver.

Record t := mk {
  _isPaused : bool;
  _updateX : Z;
  _updateY : Z;
  _updateW : Z;
  _updateH : Z;
  _pixelCount : Z
}.

(** The constructor. *)
Definition init : t := mk false 0 0 0 0 0.

Definition setPaused (paused : bool) (d : t) : t :=
  mk paused (_updateX d) (_updateY d) (_updateW d) (_updateH d) (_pixelCount d).

Definition isPaused (d : t) : bool := _isPaused d.

Definition set_pixelCount (n : Z) (d : t) : t :=
  mk (_isPaused d) (_updateX d) (_updateY d) (_updateW d) (_updateH d) n.

Definition hasCopyRect : bool := true.

(** The loop of [draw_area], from index [i], [n] iterations left. *)
Fixpoint draw_area_loop (x y w : Z) (pixels : list Z) (n : nat) (i : Z)
  : result (list Gfx.call) :=
  match n with
  | O => Ok []
  | S n' =>
      color <- read16 pixels i ;;
      m <- umod i w ;;
      q <- udiv i w ;;
      rest <- draw_area_loop x y w pixels n' (i + 1) ;;
      Ok (Gfx.writePixel (u32 (x + m)) (u32 (y + q)) (swap16 color) :: rest)
  end.

Definition draw_area (d : t) (x y w h : Z) (data : list Z)
  : result (list Gfx.call) :=
  if _isPaused d then Ok []
  else
    let pixelCount := u32 (w * h) in
    body <- draw_area_loop x y w data (Z.to_nat pixelCount) 0 ;;
    Ok ([Gfx.startWrite; Gfx.setAddrWindow x y w h] ++ body ++ [Gfx.endWrite]).

Definition draw_rect (d : t) (x y w h color : Z) : list Gfx.call :=
  if _isPaused d then []
  else
    let swappedColor := swap16 color in
    [Gfx.fillRect x y w h swappedColor].

(** The row-at-a-time fallback of [copy_rect], from [row]. *)
Fixpoint copy_rows (src_x src_y dest_x dest_y w : Z) (n : nat) (row : Z)
  : list Gfx.call :=
  match n with
  | O => []
  | S n' =>
      Gfx.readRect src_x (u32 (src_y + row)) w 1
      :: Gfx.pushImage dest_x (u32 (dest_y + row)) w 1
      :: copy_rows src_x src_y dest_x dest_y w n' (row + 1)
  end.

(** [allocated] tells whether [heap_caps_malloc] returned a buffer. *)
Definition copy_rect (d : t) (allocated : bool)
    (src_x src_y dest_x dest_y w h : Z) : list Gfx.call :=
  if _isPaused d then []
  else if allocated then
    [Gfx.readRect src_x src_y w h; Gfx.pushImage dest_x dest_y w h]
  else copy_rows src_x src_y dest_x dest_y w (Z.to_nat h) 0.

Definition area_update_start (d : t) (x y w h : Z) : t * list Gfx.call :=
  let d' := mk (_isPaused d) x y w h 0 in
  if negb (_isPaused d) then (d', [Gfx.startWrite; Gfx.setAddrWindow x y w h])
  else (d', []).

(** The loop of [area_update_data], from index [i], [n] iterations left. *)
Fixpoint area_update_loop (d : t) (pixels : list Z) (n : nat) (i : Z)
  : result (list Gfx.call) :=
  match n with
  | O => Ok []
  | S n' =>
      let pos := u32 (_pixelCount d + i) in
      m <- umod pos (_updateW d) ;;
      let px := u32 (_updateX d + m) in
      q <- udiv pos (_updateW d) ;;
      let py := u32 (_updateY d + q) in
      color <- read16 pixels i ;;
      rest <- area_update_loop d pixels n' (i + 1) ;;
      Ok (Gfx.writePixel px py (swap16 color) :: rest)
  end.

Definition area_update_data (d : t) (data : list Z) (pixel : Z)
  : result (t * list Gfx.call) :=
  if _isPaused d then
    Ok (set_pixelCount (u32 (_pixelCount d + pixel)) d, [])
  else
    calls <- area_update_loop d data (Z.to_nat pixel) 0 ;;
    Ok (set_pixelCount (u32 (_pixelCount d + pixel)) d, calls).

Definition area_update_end (d : t) : t * list Gfx.call :=
  (set_pixelCount 0 d, if negb (_isPaused d) then [Gfx.endWrite] else []).

Section Surface.

(** [_gfx->width()] and [_gfx->height()]. *)
Variables gfx_width gfx_height : Z.

Definition getWidth : Z := u32 gfx_width.
Definition getHeight : Z := u32 gfx_height.

Definition strlen (s : string) : Z := Z.of_nat (String.length s).

(** [int16_t titleX = (_gfx->width() - title.length() * 12) / 2]: the
    subtraction is unsigned, the result is narrowed to 16 bits. *)
Definition centred (s : string) : Z :=
  i16 (u32 (gfx_width - u32 (strlen s * 12)) / 2).

Definition printScreen (d : t) (title msg : string) (color : Z)
  : list Gfx.call :=
  if _isPaused d then []
  else
    let titleX := centred title in
    let msgX := centred msg in
    let centerY := i16 (Z.quot gfx_height 2) in
    [ Gfx.fillScreen Gfx.TFT_BLACK;
      Gfx.setTextColor color;
      Gfx.setTextSize 2;
      Gfx.setCursor (if 0 <? titleX then titleX else 10) (centerY - 30);
      Gfx.println title;
      Gfx.setCursor (if 0 <? msgX then msgX else 10) (centerY + 10);
      Gfx.println msg ].

Definition print (d : t) (text : string) : list Gfx.call :=
  if _isPaused d then [] else [Gfx.print text].

Definition clear (d : t) (color : Z) : list Gfx.call :=
  if _isPaused d then [] else [Gfx.fillScreen color].

End Surface.

(** A call of the protocol layer, for sequences of calls. *)
Inductive op :=
| DrawArea (x y w h : Z) (data : list Z)
| DrawRect (x y w h color : Z)
| CopyRect (allocated : bool) (src_x src_y dest_x dest_y w h : Z)
| AreaUpdateStart (x y w h : Z)
| AreaUpdateData (data : list Z) (pixel : Z)
| AreaUpdateEnd.

Definition step (d : t) (o : op) : result (t * list Gfx.call) :=
  match o with
  | DrawArea x y w h data => cs <- draw_area d x y w h data ;; Ok (d, cs)
  | DrawRect x y w h color => Ok (d, draw_rect d x y w h color)
  | CopyRect a sx sy dx dy w h => Ok (d, copy_rect d a sx sy dx dy w h)
  | AreaUpdateStart x y w h => Ok (area_update_start d x y w h)
  | AreaUpdateData data pixel => area_update_data d data pixel
  | AreaUpdateEnd => Ok (area_update_end d)
  end.

Fixpoint run (d : t) (os : list op) : result (t * list Gfx.call) :=
  match os with
  | [] => Ok (d, [])
  | o :: rest =>
      r <- step d o ;;
      r' <- run (fst r) rest ;;
      Ok (fst r', snd r ++ snd r')
  end.

(** A streaming update fed in chunks. *)
Definition feeds (chunks : list (list Z * Z)) : list op :=
  map (fun c => AreaUpdateData (fst c) (snd c)) chunks.

Definition total (chunks : list (list Z * Z)) : Z :=
  fold_right (fun c acc => snd c + acc) 0 chunks.

(** A chunk whose buffer holds the pixels it announces. *)
Definition chunk_ok (c : list Z * Z) : Prop :=
  0 <= snd c <= Z.of_nat (List.length (fst c)).

(** The integers [a], [a + 1], ..., [a + n - 1]. *)
Fixpoint zseq (a : Z) (n : nat) : list Z :=
  match n with
  | O => []
  | S n' => a :: zseq (a + 1) n'
  end.

(** Row-major order as the specification words it: the [k]-th pixel of a
    rectangle of width [w] at [(x, y)], on [uint32_t] coordinates. *)
Definition row_major (x y w k : Z) : Z * Z :=
  (u32 (x + k mod w), u32 (y + k / w)).

(** The pixels a sequence of chunks feeds, in order: of each buffer, the
    pixels its call announces. *)
Definition fed (chunks : list (list Z * Z)) : list Z :=
  List.concat (map (fun c => firstn (Z.to_nat (snd c)) (fst c)) chunks).

(** The write the specification asks for the [k]-th fed pixel, given as
    the pair of [k] and the pixel: at its row-major coordinate, with its
    bytes swapped. *)
Definition paint (x y w : Z) (kc : Z * Z) : Gfx.call :=
  Gfx.writePixel (fst (row_major x y w (fst kc))) (snd (row_major x y w (fst kc)))
    (swap16 (snd kc)).

End Driver.

(** ** main.cpp *)

Module App.

(** The values of [user_setting.h] and the geometry of [M5.Display].
    [VNC_PORT] is kept as the text [String(VNC_PORT)] renders. *)
Record config := mkConfig {
  WIFI_SSID : string;
  VNC_HOST : string;
  VNC_PORT : string;
  display_width : Z;
  display_height : Z
}.

Definition SCROLL_THRESHOLD : Z := 50.
Definition SCROLL_MIN_INTERVAL : Z := 100.
Definition THREE_TOUCH_DEBOUNCE : Z := 500.
Definition SWIPE_TOP_THRESHOLD : Z := 50.
Definition SWIPE_MIN_DISTANCE : Z := 100.
Definition SWIPE_MAX_TIME : Z := 1000.

(** The global variables.  [vncDisplay] is [None] while the pointer is
    null; [vncPresent] tells whether [vnc] is non-null. *)
Record state := mkState {
  vncDisplay : option Driver.t;
  vncPresent : bool;
  lastTouchX : Z;
  lastTouchY : Z;
  wasTouched : bool;
  twoFingerScrollActive : bool;
  scrollStartY : Z;
  lastScrollY : Z;
  lastScrollTime : Z;
  wifiConnected : bool;
  vncConnected : bool;
  vncScreenPaused : bool;
  showingInfoScreen : bool;
  screenJustSwitched : bool;
  lastThreeTouchTime : Z;
  swipeInProgress : bool;
  swipeStartY : Z;
  swipeStartX : Z;
  swipeStartTime : Z;
  cardkb_available : bool
}.

Definition set_vncDisplay (v : option Driver.t) (s : state) : state :=
  mkState v (vncPresent s) (lastTouchX s) (lastTouchY s) (wasTouched s)
    (twoFingerScrollActive s) (scrollStartY s) (lastScrollY s)
    (lastScrollTime s) (wifiConnected s) (vncConnected s) (vncScreenPaused s)
    (showingInfoScreen s) (screenJustSwitched s) (lastThreeTouchTime s)
    (swipeInProgress s) (swipeStartY s) (swipeStartX s) (swipeStartTime s)
    (cardkb_available s).

Definition set_lastTouchX (v : Z) (s : state) : state :=
  mkState (vncDisplay s) (vncPresent s) v (lastTouchY s) (wasTouched s)
    (twoFingerScrollActive s) (scrollStartY s) (lastScrollY s)
    (lastScrollTime s) (wifiConnected s) (vncConnected s) (vncScreenPaused s)
    (showingInfoScreen s) (screenJustSwitched s) (lastThreeTouchTime s)
    (swipeInProgress s) (swipeStartY s) (swipeStartX s) (swipeStartTime s)
    (cardkb_available s).

Definition set_lastTouchY (v : Z) (s : state) : state :=
  mkState (vncDisplay s) (vncPresent s) (lastTouchX s) v (wasTouched s)
    (twoFingerScrollActive s) (scrollStartY s) (lastScrollY s)
    (lastScrollTime s) (wifiConnected s) (vncConnected s) (vncScreenPaused s)
    (showingInfoScreen s) (screenJustSwitched s) (lastThreeTouchTime s)
    (swipeInProgress s) (swipeStartY s) (swipeStartX s) (swipeStartTime s)
    (cardkb_available s).

Definition set_wasTouched (v : bool) (s : state) : state :=
  mkState (vncDisplay s) (vncPresent s) (lastTouchX s) (lastTouchY s) v
    (twoFingerScrollActive s) (scrollStartY s) (lastScrollY s)
    (lastScrollTime s) (wifiConnected s) (vncConnected s) (vncScreenPaused s)
    (showingInfoScreen s) (screenJustSwitched s) (lastThreeTouchTime s)
    (swipeInProgress s) (swipeStartY s) (swipeStartX s) (swipeStartTime s)
    (cardkb_available s).

Definition set_twoFingerScrollActive (v : bool) (s : state) : state :=
  mkState (vncDisplay s) (vncPresent s) (lastTouchX s) (lastTouchY s)
    (wasTouched s) v (scrollStartY s) (lastScrollY s) (lastScrollTime s)
    (wifiConnected s) (vncConnected s) (vncScreenPaused s)
    (showingInfoScreen s) (screenJustSwitched s) (lastThreeTouchTime s)
    (swipeInProgress s) (swipeStartY s) (swipeStartX s) (swipeStartTime s)
    (cardkb_available s).

Definition set_scrollStartY (v : Z) (s : state) : state :=
  mkState (vncDisplay s) (vncPresent s) (lastTouchX s) (lastTouchY s)
    (wasTouched s) (twoFingerScrollActive s) v (lastScrollY s)
    (lastScrollTime s) (wifiConnected s) (vncConnected s) (vncScreenPaused s)
    (showingInfoScreen s) (screenJustSwitched s) (lastThreeTouchTime s)
    (swipeInProgress s) (swipeStartY s) (swipeStartX s) (swipeStartTime s)
    (cardkb_available s).

Definition set_lastScrollY (v : Z) (s : state) : state :=
  mkState (vncDisplay s) (vncPresent s) (lastTouchX s) (lastTouchY s)
    (wasTouched s) (twoFingerScrollActive s) (scrollStartY s) v
    (lastScrollTime s) (wifiConnected s) (vncConnected s) (vncScreenPaused s)
    (showingInfoScreen s) (screenJustSwitched s) (lastThreeTouchTime s)
    (swipeInProgress s) (swipeStartY s) (swipeStartX s) (swipeStartTime s)
    (cardkb_available s).

Definition set_lastScrollTime (v : Z) (s : state) : state :=
  mkState (vncDisplay s) (vncPresent s) (lastTouchX s) (lastTouchY s)
    (wasTouched s) (twoFingerScrollActive s) (scrollStartY s) (lastScrollY s)
    v (wifiConnected s) (vncConnected s) (vncScreenPaused s)
    (showingInfoScreen s) (screenJustSwitched s) (lastThreeTouchTime s)
    (swipeInProgress s) (swipeStartY s) (swipeStartX s) (swipeStartTime s)
    (cardkb_available s).

Definition set_vncScreenPaused (v : bool) (s : state) : state :=
  mkState (vncDisplay s) (vncPresent s) (lastTouchX s) (lastTouchY s)
    (wasTouched s) (twoFingerScrollActive s) (scrollStartY s) (lastScrollY s)
    (lastScrollTime s) (wifiConnected s) (vncConnected s) v
    (showingInfoScreen s) (screenJustSwitched s) (lastThreeTouchTime s)
    (swipeInProgress s) (swipeStartY s) (swipeStartX s) (swipeStartTime s)
    (cardkb_available s).

Definition set_showingInfoScreen (v : bool) (s : state) : state :=
  mkState (vncDisplay s) (vncPresent s) (lastTouchX s) (lastTouchY s)
    (wasTouched s) (twoFingerScrollActive s) (scrollStartY s) (lastScrollY s)
    (lastScrollTime s) (wifiConnected s) (vncConnected s) (vncScreenPaused s)
    v (screenJustSwitched s) (lastThreeTouchTime s) (swipeInProgress s)
    (swipeStartY s) (swipeStartX s) (swipeStartTime s) (cardkb_available s).

Definition set_screenJustSwitched (v : bool) (s : state) : state :=
  mkState (vncDisplay s) (vncPresent s) (lastTouchX s) (lastTouchY s)
    (wasTouched s) (twoFingerScrollActive s) (scrollStartY s) (lastScrollY s)
    (lastScrollTime s) (wifiConnected s) (vncConnected s) (vncScreenPaused s)
    (showingInfoScreen s) v (lastThreeTouchTime s) (swipeInProgress s)
    (swipeStartY s) (swipeStartX s) (swipeStartTime s) (cardkb_available s).

Definition set_lastThreeTouchTime (v : Z) (s : state) : state :=
  mkState (vncDisplay s) (vncPresent s) (lastTouchX s) (lastTouchY s)
    (wasTouched s) (twoFingerScrollActive s) (scrollStartY s) (lastScrollY s)
    (lastScrollTime s) (wifiConnected s) (vncConnected s) (vncScreenPaused s)
    (showingInfoScreen s) (screenJustSwitched s) v (swipeInProgress s)
    (swipeStartY s) (swipeStartX s) (swipeStartTime s) (cardkb_available s).

Definition set_swipeInProgress (v : bool) (s : state) : state :=
  mkState (vncDisplay s) (vncPresent s) (lastTouchX s) (lastTouchY s)
    (wasTouched s) (twoFingerScrollActive s) (scrollStartY s) (lastScrollY s)
    (lastScrollTime s) (wifiConnected s) (vncConnected s) (vncScreenPaused s)
    (showingInfoScreen s) (screenJustSwitched s) (lastThreeTouchTime s) v
    (swipeStartY s) (swipeStartX s) (swipeStartTime s) (cardkb_available s).

Definition set_swipeStartY (v : Z) (s : state) : state :=
  mkState (vncDisplay s) (vncPresent s) (lastTouchX s) (lastTouchY s)
    (wasTouched s) (twoFingerScrollActive s) (scrollStartY s) (lastScrollY s)
    (lastScrollTime s) (wifiConnected s) (vncConnected s) (vncScreenPaused s)
    (showingInfoScreen s) (screenJustSwitched s) (lastThreeTouchTime s)
    (swipeInProgress s) v (swipeStartX s) (swipeStartTime s)
    (cardkb_available s).

Definition set_swipeStartX (v : Z) (s : state) : state :=
  mkState (vncDisplay s) (vncPresent s) (lastTouchX s) (lastTouchY s)
    (wasTouched s) (twoFingerScrollActive s) (scrollStartY s) (lastScrollY s)
    (lastScrollTime s) (wifiConnected s) (vncConnected s) (vncScreenPaused s)
    (showingInfoScreen s) (screenJustSwitched s) (lastThreeTouchTime s)
    (swipeInProgress s) (swipeStartY s) v (swipeStartTime s)
    (cardkb_available s).

Definition set_swipeStartTime (v : Z) (s : state) : state :=
  mkState (vncDisplay s) (vncPresent s) (lastTouchX s) (lastTouchY s)
    (wasTouched s) (twoFingerScrollActive s) (scrollStartY s) (lastScrollY s)
    (lastScrollTime s) (wifiConnected s) (vncConnected s) (vncScreenPaused s)
    (showingInfoScreen s) (screenJustSwitched s) (lastThreeTouchTime s)
    (swipeInProgress s) (swipeStartY s) (swipeStartX s) v (cardkb_available s).

(** What [M5.Touch] reports after [M5.update()]: [getCount()] and the
    primary pointer of [getDetail()]. *)
Record touch := mkTouch {
  count : Z;
  x : Z;
  y : Z;
  isPressed : bool
}.

(** What one run of a function reads from outside: the touch sample,
    [millis()] and [vnc->connected()]. *)
Record tick := mkTick {
  sample : touch;
  now : Z;
  connected : bool
}.

(** The calls the program makes, in order: to the session ([arduinoVNC]),
    to the surface, and [delay]. *)
Inductive event :=
| mouseEvent (x y buttonMask : Z)
| keyEvent (keysym : Z) (down : Z)
| forceFullUpdate
| reconnect
| display (c : Gfx.call)
| delay (ms : Z).

Definition getVNCAddress (cfg : config) : string :=
  (VNC_HOST cfg ++ ":" ++ VNC_PORT cfg)%string.

Definition displayStatus (cfg : config) (title message : string) (color : Z)
    (s : state) : list event :=
  match vncDisplay s with
  | Some d =>
      map display
        (Driver.printScreen (display_width cfg) (display_height cfg)
           d title message color)
  | None => []
  end.

(** [if (vnc != nullptr && wasTouched) { mouseEvent(last, 0b000);
    wasTouched = false; }], as [showInfoScreen] and [checkSwipeGesture]
    have it. *)
Definition release_held (s : state) : state * list event :=
  if vncPresent s && wasTouched s then
    (set_wasTouched false s, [mouseEvent (lastTouchX s) (lastTouchY s) 0])
  else (s, []).

Definition pauseVNCScreen (s : state) : state :=
  match vncDisplay s with
  | Some d =>
      set_vncScreenPaused true
        (set_vncDisplay (Some (Driver.setPaused true d)) s)
  | None => s
  end.

Definition resumeVNCScreen (conn : bool) (s : state) : state * list event :=
  match vncDisplay s with
  | Some d =>
      let s' :=
        set_vncScreenPaused false
          (set_vncDisplay (Some (Driver.setPaused false d)) s) in
      if vncPresent s && conn then (s', [forceFullUpdate; delay 100])
      else (s', [])
  | None => (s, [])
  end.

Definition displayConnectionInfo (cfg : config) (s : state)
  : list Gfx.call :=
  let w := display_width cfg in
  let h := display_height cfg in
  let y0 := 110 in
  let lineHeight := 90 in
  let y1 := y0 + lineHeight in
  let y2 := y1 + lineHeight in
  let y3 := y2 + (lineHeight + 20) in
  [ Gfx.fillScreen Gfx.TFT_BLACK;
    Gfx.fillRect 0 0 w 70 Gfx.TFT_NAVY;
    Gfx.setTextColor Gfx.TFT_WHITE;
    Gfx.setTextDatum Gfx.MC_DATUM;
    Gfx.setFont Gfx.FreeSansBold18pt7b;
    Gfx.drawString "Connection Info" (Z.quot w 2) 35;
    Gfx.setFont Gfx.FreeSansBold12pt7b;
    Gfx.setTextDatum Gfx.ML_DATUM;
    Gfx.setTextColor Gfx.TFT_CYAN;
    Gfx.drawString "WiFi Network" 40 y0;
    Gfx.setTextColor Gfx.TFT_WHITE;
    Gfx.setFont Gfx.FreeSans12pt7b;
    Gfx.drawString (WIFI_SSID cfg) 40 (y0 + 40);
    Gfx.setFont Gfx.FreeSansBold12pt7b;
    Gfx.setTextColor Gfx.TFT_GREEN;
    Gfx.drawString "VNC Server" 40 y1;
    Gfx.setTextColor Gfx.TFT_WHITE;
    Gfx.setFont Gfx.FreeSans12pt7b;
    Gfx.drawString (VNC_HOST cfg) 40 (y1 + 40);
    Gfx.setFont Gfx.FreeSansBold12pt7b;
    Gfx.setTextColor Gfx.TFT_YELLOW;
    Gfx.drawString "Port" 40 y2;
    Gfx.setTextColor Gfx.TFT_WHITE;
    Gfx.setFont Gfx.FreeSans12pt7b;
    Gfx.drawString (VNC_PORT cfg) 40 (y2 + 40);
    Gfx.setFont Gfx.FreeSans9pt7b;
    Gfx.setTextDatum Gfx.MC_DATUM ]
  ++ (if wifiConnected s then
        [ Gfx.fillCircle (Z.quot w 4) y3 12 Gfx.TFT_GREEN;
          Gfx.setTextColor Gfx.TFT_GREEN;
          Gfx.drawString "WiFi OK" (Z.quot w 4) (y3 + 28) ]
      else
        [ Gfx.fillCircle (Z.quot w 4) y3 12 Gfx.TFT_RED;
          Gfx.setTextColor Gfx.TFT_RED;
          Gfx.drawString "WiFi Disconnected" (Z.quot w 4) (y3 + 28) ])
  ++ (if vncConnected s then
        [ Gfx.fillCircle (Z.quot (i32 (w * 3)) 4) y3 12 Gfx.TFT_GREEN;
          Gfx.setTextColor Gfx.TFT_GREEN;
          Gfx.drawString "VNC Connected" (Z.quot (i32 (w * 3)) 4) (y3 + 28) ]
      else
        [ Gfx.fillCircle (Z.quot (i32 (w * 3)) 4) y3 12 Gfx.TFT_RED;
          Gfx.setTextColor Gfx.TFT_RED;
          Gfx.drawString "VNC Disconnected" (Z.quot (i32 (w * 3)) 4)
            (y3 + 28) ])
  ++ [ Gfx.setFont Gfx.FreeSans12pt7b;
       Gfx.setTextColor Gfx.TFT_LIGHTGREY;
       Gfx.setTextDatum Gfx.MC_DATUM;
       Gfx.drawString "Touch with 3 fingers to return to VNC"
         (Z.quot w 2) (h - 30) ].

Definition showInfoScreen (cfg : config) (s : state) : state * list event :=
  let '(s1, released) := release_held s in
  let s2 :=
    if twoFingerScrollActive s1 then set_twoFingerScrollActive false s1
    else s1 in
  let s3 := pauseVNCScreen s2 in
  let s4 := set_showingInfoScreen true s3 in
  (s4, released ++ [delay 50] ++ map display (displayConnectionInfo cfg s4)).

Definition showVNCScreen (conn : bool) (s : state) : state * list event :=
  let s1 := set_showingInfoScreen false s in
  let '(s2, resumed) := resumeVNCScreen conn s1 in
  (s2, [display (Gfx.fillScreen Gfx.TFT_BLACK); delay 50] ++ resumed).

Definition checkMultiTouch (tk : tick) (s : state) : state * list event :=
  let touchCount := count (sample tk) in
  if 3 <=? touchCount then
    if THREE_TOUCH_DEBOUNCE <? elapsed (now tk) (lastThreeTouchTime s) then
      let s1 := set_lastThreeTouchTime (now tk) s in
      if showingInfoScreen s1 then
        showVNCScreen (connected tk) (set_screenJustSwitched true s1)
      else if vncPresent s1 && connected tk then (s1, [forceFullUpdate])
      else (s1, [])
    else (s, [])
  else (s, []).

Definition checkSwipeGesture (cfg : config) (tk : tick) (s : state)
  : state * list event :=
  let t := sample tk in
  if negb (count t =? 1) then (set_swipeInProgress false s, [])
  else if isPressed t then
    if negb (swipeInProgress s) then
      if y t <=? SWIPE_TOP_THRESHOLD then
        release_held
          (set_swipeStartTime (now tk)
             (set_swipeStartY (y t)
                (set_swipeStartX (x t) (set_swipeInProgress true s))))
      else (s, [])
    else
      let deltaY := i32 (y t - swipeStartY s) in
      let deltaX := Z.abs (i32 (x t - swipeStartX s)) in
      let swipeTime := elapsed (now tk) (swipeStartTime s) in
      if (SWIPE_MIN_DISTANCE <=? deltaY) && (deltaX <? SWIPE_MIN_DISTANCE)
         && (swipeTime <? SWIPE_MAX_TIME) then
        let '(s1, evs) := showInfoScreen cfg (set_screenJustSwitched true s) in
        (set_swipeInProgress false s1, evs)
      else if SWIPE_MAX_TIME <=? swipeTime then
        (set_swipeInProgress false s, [])
      else (s, [])
  else (set_swipeInProgress false s, []).

Definition cardKBToKeysym (cardKBCode : Z) : Z :=
  if (0x20 <=? cardKBCode) && (cardKBCode <=? 0x7E) then cardKBCode
  else if (cardKBCode =? 0x0A) || (cardKBCode =? 0x0D) then 0xff0d
  else if cardKBCode =? 0x08 then 0xff08
  else if cardKBCode =? 0x1B then 0xff1b
  else if cardKBCode =? 0x09 then 0xff09
  else if cardKBCode =? 0xb4 then 0xff51
  else if cardKBCode =? 0xb7 then 0xff53
  else if cardKBCode =? 0xb5 then 0xff52
  else if cardKBCode =? 0xb6 then 0xff54
  else if cardKBCode =? 0xff then 0xffff
  else 0.

(** The bytes [cardKBToKeysym] has a case for. *)
Definition mapped (c : Z) : bool :=
  ((0x20 <=? c) && (c <=? 0x7E))
  || existsb (Z.eqb c) [0x0A; 0x0D; 0x08; 0x1B; 0x09; 0xb4; 0xb7; 0xb5; 0xb6; 0xff].

(** The CardKB block of [loop]; [c] is the byte [cardkb_getch()] returns
    when it is polled. *)
Definition loop_cardkb (c : Z) (s : state) : list event :=
  if cardkb_available s && negb (c =? 0) then
    let keysym := cardKBToKeysym c in
    if vncPresent s then [keyEvent keysym 1; delay 50; keyEvent keysym 0]
    else []
  else [].

(** The button block of [loop]; [pressed] is
    [M5.BtnA.wasPressed() || M5.BtnPWR.wasPressed()]. *)
Definition loop_buttons (cfg : config) (pressed conn : bool) (s : state)
  : list event :=
  if pressed then
    if vncPresent s && negb conn then
      displayStatus cfg "Reconnecting" (getVNCAddress cfg) Gfx.TFT_YELLOW s
      ++ [reconnect]
    else []
  else [].

(** One iteration of [loop]: [tk1] and [tk2] share the touch sample of
    [M5.update()] and carry the [millis()] of each gesture check. *)
Definition loop (cfg : config) (tk1 tk2 : tick) (pressed : bool) (c : Z)
    (s : state) : state * list event :=
  let '(s1, e1) := checkMultiTouch tk1 s in
  let '(s2, e2) := checkSwipeGesture cfg tk2 s1 in
  let e3 := loop_buttons cfg pressed (connected tk2) s2 in
  let e4 := loop_cardkb c s2 in
  (s2, e1 ++ e2 ++ e3 ++ e4 ++ [delay 10]).

Definition scroll_tick (t : touch) (buttonMask : Z) : list event :=
  [mouseEvent (x t) (y t) buttonMask; delay 50; mouseEvent (x t) (y t) 0].

Definition handleTouch (tk : tick) (s : state) : state * list event :=
  if negb (vncPresent s) then (s, [])
  else
    let touchCount := count (sample tk) in
    let t := sample tk in
    if swipeInProgress s then (s, [])
    else if screenJustSwitched s then
      if touchCount =? 0 then (set_screenJustSwitched false s, [])
      else (s, [])
    else if touchCount =? 2 then
      if negb (twoFingerScrollActive s) then
        let s1 :=
          set_lastScrollY (y t)
            (set_scrollStartY (y t) (set_twoFingerScrollActive true s)) in
        if wasTouched s1 then
          (set_wasTouched false s1,
           [mouseEvent (lastTouchX s1) (lastTouchY s1) 0])
        else (s1, [])
      else
        let deltaY := i32 (lastScrollY s - y t) in
        if (SCROLL_THRESHOLD <=? Z.abs deltaY)
           && (SCROLL_MIN_INTERVAL <=? elapsed (now tk) (lastScrollTime s))
        then
          let s1 := set_lastScrollTime (now tk) (set_lastScrollY (y t) s) in
          if 0 <? deltaY then (s1, scroll_tick t 8)
          else (s1, scroll_tick t 16)
        else (s, [])
    else
      let s1 :=
        if twoFingerScrollActive s then set_twoFingerScrollActive false s
        else s in
      if (touchCount =? 1) && isPressed t then
        if negb (wasTouched s1) || negb (x t =? lastTouchX s1)
           || negb (y t =? lastTouchY s1) then
          (set_wasTouched true
             (set_lastTouchY (y t) (set_lastTouchX (x t) s1)),
           [mouseEvent (x t) (y t) 1])
        else (s1, [])
      else if wasTouched s1 then
        (set_wasTouched false s1,
         [mouseEvent (lastTouchX s1) (lastTouchY s1) 0])
      else (s1, []).

(** Whether the events of one run of [handleTouch] are a wheel step. *)
Definition is_scroll_tick (evs : list event) : bool :=
  match evs with
  | [mouseEvent _ _ m; delay _; mouseEvent _ _ 0] => (m =? 8) || (m =? 16)
  | _ => false
  end.

(** The two tasks run side by side: [loop] on one core, [handleTouch]
    (from [vncTask]) on the other.  A schedule lists whose turn it is,
    with what each run reads; a run is taken as one step.  [vncTask] runs
    [handleTouch] only while the session is connected and the live view
    is shown; a schedule may run it in any state. *)
Inductive activity :=
| RunLoop (tk1 tk2 : tick) (pressed : bool) (c : Z)
| RunHandleTouch (tk : tick).

(** Runs a schedule; returns, for each run of [handleTouch], its
    [millis()] and the events it sent. *)
Fixpoint interleave (cfg : config) (acts : list activity) (s : state)
  : state * list (Z * list event) :=
  match acts with
  | [] => (s, [])
  | RunLoop tk1 tk2 pressed c :: rest =>
      interleave cfg rest (fst (loop cfg tk1 tk2 pressed c s))
  | RunHandleTouch tk :: rest =>
      let '(s1, e1) := handleTouch tk s in
      let '(s2, r) := interleave cfg rest s1 in
      (s2, (now tk, e1) :: r)
  end.

Definition touched (a : activity) : Prop :=
  match a with
  | RunLoop _ _ _ _ => True
  | RunHandleTouch tk => count (sample tk) <> 0
  end.

(** The [millis()] of the runs of [handleTouch] that sent a wheel step. *)
Definition scroll_times (r : list (Z * list event)) : list Z :=
  map fst (filter (fun p => is_scroll_tick (snd p)) r).

(** Each time of [ts] is at least [SCROLL_MIN_INTERVAL] after the one
    before it, the first after [last]. *)
Fixpoint spaced (last : Z) (ts : list Z) : Prop :=
  match ts with
  | [] => True
  | t :: rest => SCROLL_MIN_INTERVAL <= elapsed t last /\ spaced t rest
  end.

Definition is_forceFullUpdate (e : event) : bool :=
  match e with forceFullUpdate => true | _ => false end.

(** How many times a list of events asks the session for a full redraw. *)
Definition full_redraws (evs : list event) : nat :=
  List.length (filter is_forceFullUpdate evs).

Definition is_display (e : event) : bool :=
  match e with display _ => true | _ => false end.

(** The globals once [setup] has run with the WiFi link up:
    [setupDisplay] has made the driver, [setupVNC] the client; [kb] is
    what [setupCardKB] found. *)
Definition after_setup (kb : bool) : state :=
  mkState (Some Driver.init) true 0 0 false false 0 0 0 true false
    false false false 0 false 0 0 0 kb.

(** Runs a schedule; returns every event sent, in order. *)
Fixpoint schedule (cfg : config) (acts : list activity) (s : state)
  : state * list event :=
  match acts with
  | [] => (s, [])
  | RunLoop tk1 tk2 pressed c :: rest =>
      let '(s1, e1) := loop cfg tk1 tk2 pressed c s in
      let '(s2, e2) := schedule cfg rest s1 in
      (s2, e1 ++ e2)
  | RunHandleTouch tk :: rest =>
      let '(s1, e1) := handleTouch tk s in
      let '(s2, e2) := schedule cfg rest s1 in
      (s2, e1 ++ e2)
  end.

(** Whether the session sees the left button held once it has received
    [evs], [b] telling whether it saw it held before: bit 0 of the mask of
    the last pointer event. *)
Fixpoint button_after (b : bool) (evs : list event) : bool :=
  match evs with
  | [] => b
  | mouseEvent _ _ m :: rest => button_after (Z.odd m) rest
  | _ :: rest => button_after b rest
  end.

(** No button is held while a two-finger scroll or a swipe is going on. *)
Definition no_button_in_gesture (s : state) : Prop :=
  (twoFingerScrollActive s = true -> wasTouched s = false)
  /\ (vncPresent s = true -> swipeInProgress s = true -> wasTouched s = false).

(** The info screen is shown exactly while the driver is paused, and
    [vncScreenPaused] says the same. *)
Definition mode_consistent (s : state) : Prop :=
  match vncDisplay s with
  | Some d =>
      Driver._isPaused d = showingInfoScreen s
      /\ vncScreenPaused s = showingInfoScreen s
  | None => vncScreenPaused s = false
  end.

Definition is_keyEvent (e : event) : bool :=
  match e with keyEvent _ _ => true | _ => false end.

Definition is_mouseEvent (e : event) : bool :=
  match e with mouseEvent _ _ _ => true | _ => false end.

Definition is_reconnect (e : event) : bool :=
  match e with reconnect => true | _ => false end.

End App.

(** * Properties *)

Import Driver.

(** ** Arithmetic of the fixed-width types *)

Lemma u32_range z : in_u32 (u32 z).
Proof. unfold in_u32, u32. apply Z.mod_pos_bound. reflexivity. Qed.

Lemma u32_small z : in_u32 z -> u32 z = z.
Proof. unfold in_u32, u32. intros H. apply Z.mod_small. exact H. Qed.

Lemma u32_add_l a b : u32 (u32 a + b) = u32 (a + b).
Proof. unfold u32. apply Zplus_mod_idemp_l. Qed.

Lemma i32_small z : - 2 ^ 31 <= z < 2 ^ 31 -> i32 z = z.
Proof. unfold i32. intros H. rewrite Z.mod_small; lia. Qed.

Lemma i32_sub_i16 a b : in_i16 a -> in_i16 b -> i32 (a - b) = a - b.
Proof. unfold in_i16. intros Ha Hb. apply i32_small. lia. Qed.

(** Adding offsets below [2 ^ 32] to a base keeps them apart after the
    wrap-around. *)
Lemma u32_add_inj a m1 m2 :
  0 <= m1 < 2 ^ 32 -> 0 <= m2 < 2 ^ 32 ->
  u32 (a + m1) = u32 (a + m2) -> m1 = m2.
Proof.
  unfold u32. intros H1 H2 E.
  pose proof (Z.div_mod (a + m1) (2 ^ 32) ltac:(lia)) as D1.
  pose proof (Z.div_mod (a + m2) (2 ^ 32) ltac:(lia)) as D2.
  rewrite E in D1.
  assert ((a + m1) / 2 ^ 32 = (a + m2) / 2 ^ 32) by lia.
  lia.
Qed.

(** ** Enumerations *)

Lemma zseq_In a n k : In k (zseq a n) <-> a <= k < a + Z.of_nat n.
Proof.
  revert a. induction n as [|n IH]; intros a; simpl zseq.
  - simpl. lia.
  - simpl In. rewrite IH. lia.
Qed.

Lemma zseq_NoDup a n : NoDup (zseq a n).
Proof.
  revert a. induction n as [|n IH]; intros a; simpl; constructor.
  - rewrite zseq_In. lia.
  - apply IH.
Qed.

Lemma zseq_app a n m :
  zseq a (n + m) = zseq a n ++ zseq (a + Z.of_nat n) m.
Proof.
  revert a. induction n as [|n IH]; intros a.
  - simpl. f_equal. lia.
  - cbn [Nat.add zseq app]. rewrite IH. do 3 f_equal. lia.
Qed.

(** ** The streaming update, not paused *)

Lemma written_app cs1 cs2 :
  Gfx.written (cs1 ++ cs2) = Gfx.written cs1 ++ Gfx.written cs2.
Proof. unfold Gfx.written. apply flat_map_app. Qed.

Lemma umod_ok a b : b <> 0 -> umod a b = Ok (a mod b).
Proof. unfold umod. intros H. destruct (Z.eqb_spec b 0); [contradiction|reflexivity]. Qed.

Lemma udiv_ok a b : b <> 0 -> udiv a b = Ok (a / b).
Proof. unfold udiv. intros H. destruct (Z.eqb_spec b 0); [contradiction|reflexivity]. Qed.

Lemma read16_ok pixels i :
  0 <= i < Z.of_nat (List.length pixels) -> exists c, read16 pixels i = Ok c.
Proof.
  intros H. unfold read16.
  destruct (nth_error pixels (Z.to_nat i)) as [c|] eqn:E.
  - exists c. reflexivity.
  - apply nth_error_None in E. lia.
Qed.

(** The loop writes the pixels at positions [_pixelCount + i], ..., in
    row-major order, and makes no other call. *)
Lemma area_update_loop_ok d pixels n : forall i,
  0 < _updateW d -> 0 <= _pixelCount d -> 0 <= i ->
  _pixelCount d + i + Z.of_nat n <= 2 ^ 32 ->
  i + Z.of_nat n <= Z.of_nat (List.length pixels) ->
  exists calls,
    area_update_loop d pixels n i = Ok calls
    /\ forallb Gfx.is_writePixel calls = true
    /\ Gfx.written calls =
       map (row_major (_updateX d) (_updateY d) (_updateW d))
         (zseq (_pixelCount d + i) n).
Proof.
  induction n as [|n IH]; intros i Hw Hp Hi Hmax Hlen.
  - exists []. repeat split.
  - destruct (IH (i + 1)) as (rest & Er & Fr & Wr); try lia.
    destruct (read16_ok pixels i) as (c & Ec); [lia|].
    exists (Gfx.writePixel
              (u32 (_updateX d + (_pixelCount d + i) mod _updateW d))
              (u32 (_updateY d + (_pixelCount d + i) / _updateW d))
              (swap16 c) :: rest).
    cbn [area_update_loop].
    rewrite (u32_small (_pixelCount d + i)) by (unfold in_u32; lia).
    rewrite umod_ok, udiv_ok by lia.
    cbn [bind]. rewrite Ec. cbn [bind]. rewrite Er. cbn [bind].
    repeat split.
    + cbn. exact Fr.
    + cbn [zseq map]. change (Gfx.written (?c :: ?r)) with (Gfx.written [c] ++ Gfx.written r).
      cbn. rewrite Wr. unfold row_major at 2.
      do 3 f_equal. lia.
Qed.

Lemma total_nonneg chunks : Forall chunk_ok chunks -> 0 <= total chunks.
Proof.
  induction 1 as [|c cs Hc _ IH]; simpl; [lia|]. unfold chunk_ok in Hc. lia.
Qed.

(** A sequence of chunks continues the enumeration where the counter
    stands. *)
Lemma feeds_ok chunks : forall d,
  _isPaused d = false -> 0 < _updateW d -> 0 <= _pixelCount d ->
  Forall chunk_ok chunks ->
  _pixelCount d + total chunks < 2 ^ 32 ->
  exists d' calls,
    run d (feeds chunks) = Ok (d', calls)
    /\ forallb Gfx.is_writePixel calls = true
    /\ Gfx.written calls =
       map (row_major (_updateX d) (_updateY d) (_updateW d))
         (zseq (_pixelCount d) (Z.to_nat (total chunks)))
    /\ d' = set_pixelCount (_pixelCount d + total chunks) d.
Proof.
  induction chunks as [|[data n] rest IH]; intros d Hu Hw Hp Hok Hmax.
  - exists d, []. cbn. repeat split.
    destruct d; unfold set_pixelCount; cbn. f_equal. lia.
  - inversion Hok as [|c cs Hc Hrest]; subst.
    unfold chunk_ok in Hc; cbn [fst snd] in Hc.
    pose proof (total_nonneg rest Hrest) as Hr.
    cbn [total fold_right snd] in Hmax. fold (total rest) in Hmax.
    destruct (area_update_loop_ok d data (Z.to_nat n) 0) as (c1 & E1 & F1 & W1);
      try lia.
    set (d1 := set_pixelCount (_pixelCount d + n) d).
    destruct (IH d1) as (d2 & c2 & E2 & F2 & W2 & D2);
      try (subst d1; cbn; auto; lia).
    exists d2, (c1 ++ c2).
    cbn [feeds map run step fst snd]. unfold area_update_data.
    rewrite Hu, E1. cbn [bind fst snd].
    rewrite (u32_small (_pixelCount d + n)) by (unfold in_u32; lia).
    fold d1. fold (feeds rest). rewrite E2. cbn [bind fst snd].
    repeat split.
    + rewrite forallb_app, F1, F2. reflexivity.
    + rewrite written_app, W1, W2.
      cbn [total fold_right snd]. fold (total rest).
      rewrite Z2Nat.inj_add by lia. rewrite zseq_app, map_app.
      subst d1. cbn. rewrite Z2Nat.id by lia.
      rewrite Z.add_0_r. reflexivity.
    + rewrite D2. subst d1. unfold set_pixelCount. cbn.
      cbn [total fold_right snd]. fold (total rest). f_equal. lia.
Qed.

(** Distinct positions below [w * h] get distinct coordinates. *)
Lemma row_major_NoDup x y w h :
  0 < w -> 0 <= h -> w * h < 2 ^ 32 ->
  NoDup (map (row_major x y w) (zseq 0 (Z.to_nat (w * h)))).
Proof.
  intros Hw Hh Hmax.
  apply NoDup_map_NoDup_ForallPairs; [|apply zseq_NoDup].
  intros k1 k2 H1 H2 E.
  apply zseq_In in H1. apply zseq_In in H2.
  rewrite Z2Nat.id in H1, H2 by nia.
  assert (1 <= h) by (destruct (Z.eq_dec h 0); [subst; lia | lia]).
  assert (w <= w * h) by nia.
  pose proof (Z.mod_pos_bound k1 w Hw). pose proof (Z.mod_pos_bound k2 w Hw).
  assert (0 <= k1 / w <= k1) by (split; [apply Z.div_pos; lia | apply Z.div_le_upper_bound; nia]).
  assert (0 <= k2 / w <= k2) by (split; [apply Z.div_pos; lia | apply Z.div_le_upper_bound; nia]).
  unfold row_major in E. injection E as Em Eq.
  apply u32_add_inj in Em; [|lia|lia].
  apply u32_add_inj in Eq; [|lia|lia].
  rewrite (Z.div_mod k1 w), (Z.div_mod k2 w) by lia.
  rewrite Em, Eq. reflexivity.
Qed.

(** The coordinates of the positions below [w * h] are those of the
    rectangle. *)
Lemma row_major_In x y w h p :
  0 < w -> 0 <= h ->
  In p (map (row_major x y w) (zseq 0 (Z.to_nat (w * h))))
  <-> exists i j, 0 <= i < w /\ 0 <= j < h /\ p = (u32 (x + i), u32 (y + j)).
Proof.
  intros Hw Hh. rewrite in_map_iff. split.
  - intros (k & Ek & Hk). apply zseq_In in Hk. rewrite Z2Nat.id in Hk by nia.
    exists (k mod w), (k / w). repeat split.
    + apply Z.mod_pos_bound; lia.
    + apply Z.mod_pos_bound; lia.
    + apply Z.div_pos; lia.
    + apply Z.div_lt_upper_bound; lia.
    + symmetry. exact Ek.
  - intros (i & j & Hi & Hj & Ep).
    exists (i + j * w). split.
    + unfold row_major. rewrite Z_mod_plus_full, Z_div_plus_full by lia.
      rewrite Z.mod_small, Z.div_small by lia. rewrite Ep. reflexivity.
    + apply zseq_In. rewrite Z2Nat.id by nia. nia.
Qed.

(** ** Claims on the display update adapter *)

(** C1 (the code departs from it).  The claim: an update begun with width 0
    never reaches a division by that width.  The code: on a driver that is
    not paused, an update begun with width 0 and fed any positive number of
    pixels evaluates [pos % _updateW] with [_updateW = 0] on its first
    iteration; only a paused driver skips the loop. *)
Theorem zero_width_feed_divides_by_zero :
  forall d0 x y h data pixel,
    _isPaused d0 = false ->
    0 < pixel ->
    area_update_data (fst (area_update_start d0 x y 0 h)) data pixel
    = Fault DivisionByZero.
Proof.
  intros d0 x y h data pixel Hu Hp.
  unfold area_update_start, area_update_data. rewrite Hu. cbn [negb fst _isPaused].
  destruct (Z.to_nat pixel) as [|n] eqn:E; [lia|].
  reflexivity.
Qed.

Lemma zero_width_feed_divides_by_zero_witness :
  area_update_data (fst (area_update_start init 7 9 0 4)) [0x1234] 1
  = Fault DivisionByZero.
Proof.
  apply (zero_width_feed_divides_by_zero init 7 9 4 [0x1234] 1);
    [reflexivity | lia].
Defined.

Lemma paused_step d o :
  _isPaused d = true ->
  exists d', step d o = Ok (d', []) /\ _isPaused d' = true.
Proof.
  intros Hp. destruct o; cbn [step];
    unfold draw_area, draw_rect, copy_rect, area_update_start,
      area_update_data, area_update_end;
    rewrite Hp; cbn [bind negb]; eexists; split; try reflexivity; exact Hp.
Qed.

Lemma paused_run os : forall d,
  _isPaused d = true ->
  exists d', run d os = Ok (d', []) /\ _isPaused d' = true.
Proof.
  induction os as [|o os IH]; intros d Hp.
  - exists d. split; [reflexivity|exact Hp].
  - destruct (paused_step d o Hp) as (d1 & E1 & P1).
    destruct (IH d1 P1) as (d2 & E2 & P2).
    exists d2. cbn [run]. rewrite E1. cbn [bind fst snd]. rewrite E2.
    split; [reflexivity|exact P2].
Qed.

Lemma paused_feeds chunks : forall d,
  _isPaused d = true -> in_u32 (_pixelCount d) ->
  exists d',
    run d (feeds chunks) = Ok (d', [])
    /\ _pixelCount d' = u32 (_pixelCount d + total chunks).
Proof.
  induction chunks as [|[data n] rest IH]; intros d Hp Hr.
  - exists d. split; [reflexivity|].
    cbn [total fold_right]. rewrite Z.add_0_r, u32_small; auto.
  - set (d1 := set_pixelCount (u32 (_pixelCount d + n)) d).
    destruct (IH d1) as (d2 & E2 & C2); [exact Hp | apply u32_range |].
    exists d2. cbn [feeds map run step fst snd]. unfold area_update_data.
    rewrite Hp. cbn [bind fst snd]. fold d1. fold (feeds rest).
    rewrite E2. cbn [bind fst snd]. split; [reflexivity|].
    rewrite C2. subst d1. cbn [set_pixelCount _pixelCount].
    cbn [total fold_right snd]. fold (total rest).
    rewrite u32_add_l. f_equal. lia.
Qed.

(** C4.  While the pause flag is set no operation of the adapter makes a
    call to the surface; a feed advances [_pixelCount] by its pixel count
    (on [uint32_t]); and after an update is begun and fed any sequence of
    chunks, [_pixelCount] is the sum of the fed counts (on [uint32_t]: the
    sum itself whenever it fits 32 bits). *)
Theorem paused_no_draw_and_exact_count :
  forall d,
    _isPaused d = true ->
    (forall os, exists d', run d os = Ok (d', []) /\ _isPaused d' = true)
    /\ (forall data pixel,
          area_update_data d data pixel
          = Ok (set_pixelCount (u32 (_pixelCount d + pixel)) d, []))
    /\ (forall x y w h chunks, exists d',
          run d (AreaUpdateStart x y w h :: feeds chunks) = Ok (d', [])
          /\ _pixelCount d' = u32 (total chunks)
          /\ (in_u32 (total chunks) -> _pixelCount d' = total chunks)).
Proof.
  intros d Hp. split; [|split].
  - intros os. apply paused_run. exact Hp.
  - intros data pixel. unfold area_update_data. rewrite Hp. reflexivity.
  - intros x y w h chunks.
    set (d0 := fst (area_update_start d x y w h)).
    assert (P0 : _isPaused d0 = true).
    { subst d0. unfold area_update_start. rewrite Hp. reflexivity. }
    assert (C0 : _pixelCount d0 = 0).
    { subst d0. unfold area_update_start. rewrite Hp. reflexivity. }
    destruct (paused_feeds chunks d0 P0) as (d' & E & C).
    { rewrite C0. unfold in_u32. lia. }
    exists d'. cbn [run step]. cbn [bind]. fold d0.
    assert (S0 : snd (area_update_start d x y w h) = []).
    { unfold area_update_start. rewrite Hp. reflexivity. }
    rewrite S0, E. cbn [bind fst snd app].
    rewrite C0 in C. cbn [Z.add] in C.
    repeat split; [exact C|]. intros Hin. rewrite C. apply u32_small. exact Hin.
Qed.

Lemma paused_no_draw_and_exact_count_witness :
  exists d',
    run (setPaused true init)
      (AreaUpdateStart 0 0 4 2 :: feeds [([], 3); ([], 5)]) = Ok (d', [])
    /\ _pixelCount d' = 8.
Proof.
  destruct (paused_no_draw_and_exact_count (setPaused true init) eq_refl)
    as (_ & _ & H).
  destruct (H 0 0 4 2 [([], 3); ([], 5)]) as (d' & E & _ & C).
  exists d'. split; [exact E|]. apply C. unfold in_u32. cbn. lia.
Defined.

(** The same, with the colours: position [k] gets the [k]-th fed pixel. *)
Lemma skipn_cons_nth (l : list Z) : forall k c,
  nth_error l k = Some c -> skipn k l = c :: skipn (S k) l.
Proof.
  induction l as [|a l IH]; intros [|k] c E; try discriminate.
  - inversion E; subst. reflexivity.
  - cbn in E. cbn [skipn]. apply IH. exact E.
Qed.

Lemma zseq_length a n : List.length (zseq a n) = n.
Proof. revert a. induction n as [|n IH]; intros a; cbn; [|rewrite IH]; reflexivity. Qed.

Lemma combine_app_same {A B} (l1 l2 : list A) (m1 m2 : list B) :
  List.length l1 = List.length m1 ->
  combine (l1 ++ l2) (m1 ++ m2) = combine l1 m1 ++ combine l2 m2.
Proof.
  revert m1. induction l1 as [|a l1 IH]; intros [|b m1] H; try discriminate.
  - reflexivity.
  - cbn. f_equal. apply IH. cbn in H. lia.
Qed.

Lemma area_update_loop_calls d pixels n : forall i,
  0 < _updateW d -> 0 <= _pixelCount d -> 0 <= i ->
  _pixelCount d + i + Z.of_nat n <= 2 ^ 32 ->
  i + Z.of_nat n <= Z.of_nat (List.length pixels) ->
  area_update_loop d pixels n i
  = Ok (map (paint (_updateX d) (_updateY d) (_updateW d))
          (combine (zseq (_pixelCount d + i) n)
             (firstn n (skipn (Z.to_nat i) pixels)))).
Proof.
  induction n as [|n IH]; intros i Hw Hp Hi Hmax Hlen; [reflexivity|].
  cbn [area_update_loop].
  rewrite (u32_small (_pixelCount d + i)) by (unfold in_u32; lia).
  rewrite umod_ok, udiv_ok by lia. cbn [bind].
  unfold read16.
  destruct (nth_error pixels (Z.to_nat i)) as [c|] eqn:E;
    [|apply nth_error_None in E; lia].
  cbn [bind]. rewrite (IH (i + 1)) by lia. cbn [bind].
  rewrite (skipn_cons_nth pixels _ _ E).
  cbn [firstn zseq combine map]. unfold paint at 2, row_major. cbn [fst snd].
  replace (Z.to_nat (i + 1)) with (S (Z.to_nat i)) by lia.
  replace (_pixelCount d + (i + 1)) with (_pixelCount d + i + 1) by lia.
  reflexivity.
Qed.

Lemma fed_length chunks :
  Forall chunk_ok chunks -> List.length (fed chunks) = Z.to_nat (total chunks).
Proof.
  induction 1 as [|[data n] cs Hc Hcs IH]; [reflexivity|].
  unfold chunk_ok in Hc. cbn [fst snd] in Hc.
  pose proof (total_nonneg cs Hcs).
  unfold fed in *. cbn [map List.concat fst snd total fold_right].
  fold (total cs). rewrite length_app, IH, length_firstn.
  rewrite Z2Nat.inj_add by lia. lia.
Qed.

Lemma feeds_calls chunks : forall d,
  _isPaused d = false -> 0 < _updateW d -> 0 <= _pixelCount d ->
  Forall chunk_ok chunks ->
  _pixelCount d + total chunks < 2 ^ 32 ->
  run d (feeds chunks)
  = Ok (set_pixelCount (_pixelCount d + total chunks) d,
        map (paint (_updateX d) (_updateY d) (_updateW d))
          (combine (zseq (_pixelCount d) (Z.to_nat (total chunks)))
             (fed chunks))).
Proof.
  induction chunks as [|[data n] rest IH]; intros d Hu Hw Hp Hok Hmax.
  - cbn [feeds map run total fold_right]. rewrite Z.add_0_r.
    destruct d; reflexivity.
  - inversion Hok as [|c cs Hc Hrest]; subst.
    unfold chunk_ok in Hc; cbn [fst snd] in Hc.
    pose proof (total_nonneg rest Hrest) as Hr.
    cbn [total fold_right snd] in Hmax. fold (total rest) in Hmax.
    cbn [feeds map run step fst snd]. unfold area_update_data.
    rewrite Hu, (area_update_loop_calls d data (Z.to_nat n) 0) by lia.
    cbn [bind fst snd].
    rewrite (u32_small (_pixelCount d + n)) by (unfold in_u32; lia).
    fold (feeds rest).
    rewrite (IH (set_pixelCount (_pixelCount d + n) d));
      [|exact Hu|exact Hw|cbn; lia|exact Hrest|cbn; lia].
    cbn [bind fst snd set_pixelCount _pixelCount _updateX _updateY _updateW
         _isPaused _updateH].
    cbn [total fold_right snd]. fold (total rest).
    unfold fed. cbn [map List.concat fst snd]. fold (fed rest).
    rewrite Z2Nat.inj_add by lia. rewrite zseq_app.
    rewrite combine_app_same
      by (rewrite zseq_length, length_firstn; lia).
    rewrite map_app, Z.add_0_r, Z2Nat.id by lia.
    cbn [skipn Z.to_nat]. unfold set_pixelCount. cbn.
    rewrite Z.add_assoc. reflexivity.
Qed.

(** C5.  An update begun at [(x, y)] with width [w > 0] and height [h] on
    a driver that is not paused, fed chunks whose counts sum to [w * h]:
    the calls are pixel writes only, the [k]-th being the write of the
    [k]-th fed pixel, bytes swapped, to [(x + k % w, y + k / w)]; no
    coordinate is written twice, and the coordinates written are those of
    the rectangle. *)
Theorem streaming_update_covers_rectangle :
  forall d0 x y w h chunks,
    _isPaused d0 = false ->
    0 < w -> 0 <= h -> w * h < 2 ^ 32 ->
    Forall chunk_ok chunks ->
    total chunks = w * h ->
    exists d' calls,
      run (fst (area_update_start d0 x y w h)) (feeds chunks) = Ok (d', calls)
      /\ forallb Gfx.is_writePixel calls = true
      /\ Gfx.written calls
         = map (row_major x y w) (zseq 0 (Z.to_nat (w * h)))
      /\ (0 <= x -> 0 <= y -> x + w <= 2 ^ 32 -> y + h <= 2 ^ 32 ->
          Gfx.written calls
          = map (fun k => (x + k mod w, y + k / w))
              (zseq 0 (Z.to_nat (w * h))))
      /\ NoDup (Gfx.written calls)
      /\ (forall p,
            In p (Gfx.written calls)
            <-> exists i j,
                  0 <= i < w /\ 0 <= j < h
                  /\ p = (u32 (x + i), u32 (y + j)))
      /\ _pixelCount d' = w * h
      /\ calls
         = map (paint x y w)
             (combine (zseq 0 (Z.to_nat (w * h))) (fed chunks))
      /\ List.length (fed chunks) = Z.to_nat (w * h).
Proof.
  intros d0 x y w h chunks Hu Hw Hh Hmax Hok Htot.
  set (d := fst (area_update_start d0 x y w h)).
  assert (Ed : d = mk false x y w h 0).
  { subst d. unfold area_update_start. rewrite Hu. reflexivity. }
  assert (Hmax' : _pixelCount d + total chunks < 2 ^ 32)
    by (rewrite Ed, Htot; cbn [_pixelCount]; lia).
  destruct (feeds_ok chunks d) as (d' & calls & E & F & W & D);
    [rewrite Ed; reflexivity | rewrite Ed; exact Hw | rewrite Ed; cbn; lia
    | exact Hok | exact Hmax' |].
  rewrite Ed in W. cbn [_updateX _updateY _updateW _pixelCount] in W.
  rewrite Htot in W.
  exists d', calls. split; [exact E|]. split; [exact F|]. split; [exact W|].
  split; [|split; [|split; [|split; [|split]]]].
  - intros Hx Hy Hxw Hyh. rewrite W. apply map_ext_in.
    intros k Hk. apply zseq_In in Hk. rewrite Z2Nat.id in Hk by nia.
    assert (1 <= h) by (destruct (Z.eq_dec h 0); [subst; lia | lia]).
    pose proof (Z.mod_pos_bound k w Hw).
    assert (0 <= k / w < h)
      by (split; [apply Z.div_pos; lia | apply Z.div_lt_upper_bound; lia]).
    unfold row_major. rewrite !u32_small by (unfold in_u32; lia). reflexivity.
  - rewrite W. apply row_major_NoDup; assumption.
  - intros p. rewrite W. apply row_major_In; assumption.
  - rewrite D, Ed. cbn. rewrite Htot. lia.
  - pose proof (feeds_calls chunks d) as C.
    rewrite E in C. rewrite Ed in C at 1 2 3.
    specialize (C eq_refl Hw ltac:(cbn; lia) Hok Hmax').
    rewrite Ed in C. cbn [_updateX _updateY _updateW _pixelCount] in C.
    rewrite Htot in C. inversion C. reflexivity.
  - rewrite fed_length, Htot by exact Hok. reflexivity.
Qed.

Lemma streaming_update_covers_rectangle_witness :
  exists d' calls,
    run (fst (area_update_start init 2 3 2 2))
      (feeds [([0x0102; 0x0304; 0x0506], 3); ([0x0708], 1)]) = Ok (d', calls)
    /\ Gfx.written calls = [(2, 3); (3, 3); (2, 4); (3, 4)]
    /\ calls = [Gfx.writePixel 2 3 0x0201; Gfx.writePixel 3 3 0x0403;
                Gfx.writePixel 2 4 0x0605; Gfx.writePixel 3 4 0x0807].
Proof.
  destruct (streaming_update_covers_rectangle init 2 3 2 2
              [([0x0102; 0x0304; 0x0506], 3); ([0x0708], 1)])
    as (d' & calls & E & _ & _ & W & _ & _ & _ & C & _).
  - reflexivity.
  - lia.
  - lia.
  - reflexivity.
  - repeat constructor; unfold chunk_ok; cbn; lia.
  - reflexivity.
  - exists d', calls. split; [exact E|]. split.
    + rewrite W by (cbn; lia). reflexivity.
    + rewrite C. reflexivity.
Defined.

(** C10.  While the pause flag is set, [printScreen], [print] and [clear]
    make no call to the surface, and neither does [displayStatus], which
    goes through [printScreen]; [pauseVNCScreen] sets that flag. *)
Theorem paused_status_helpers_are_noops :
  forall d,
    _isPaused d = true ->
    (forall gw gh title msg color, printScreen gw gh d title msg color = [])
    /\ (forall text, print d text = [])
    /\ (forall color, clear d color = [])
    /\ (forall cfg s title msg color,
          App.vncDisplay s = Some d ->
          App.displayStatus cfg title msg color s = [])
    /\ (forall cfg s title msg color,
          App.displayStatus cfg title msg color (App.pauseVNCScreen s) = []).
Proof.
  intros d Hp. repeat split.
  - intros. unfold printScreen. rewrite Hp. reflexivity.
  - intros. unfold print. rewrite Hp. reflexivity.
  - intros. unfold clear. rewrite Hp. reflexivity.
  - intros cfg s title msg color Hd. unfold App.displayStatus.
    rewrite Hd. unfold printScreen. rewrite Hp. reflexivity.
  - intros cfg s title msg color.
    unfold App.displayStatus, App.pauseVNCScreen.
    destruct (App.vncDisplay s) as [d1|] eqn:Hd; cbn.
    + reflexivity.
    + rewrite Hd. reflexivity.
Qed.

Lemma paused_status_helpers_are_noops_witness :
  printScreen 1280 720 (setPaused true init) "WiFi Disconnected"
    "Reconnecting..." Gfx.TFT_RED = []
  /\ print (setPaused true init) "." = []
  /\ clear (setPaused true init) 0 = [].
Proof.
  destruct (paused_status_helpers_are_noops (setPaused true init) eq_refl)
    as (H1 & H2 & H3 & _).
  split; [apply H1 | split; [apply H2 | apply H3]].
Defined.

(** ** Claims on the key device and the screen switch *)

Import App.

(** Case analysis on the tests of a function body. *)
Ltac branch :=
  repeat match goal with
         | |- context [if ?b then _ else _] => destruct b eqn:?
         | |- context [match ?o with Some _ => _ | None => _ end] =>
             destruct o eqn:?
         end.

Lemma cardKBToKeysym_unmapped c : mapped c = false -> cardKBToKeysym c = 0.
Proof.
  unfold mapped, cardKBToKeysym. cbn [existsb].
  intros H.
  repeat (apply orb_false_iff in H; destruct H as [? H]).
  repeat match goal with
         | E : _ = false |- _ => rewrite E; clear E
         end.
  reflexivity.
Qed.

(** The gesture checks of [loop] leave the pointers to the client and to
    the key device as they are. *)
Lemma release_held_static s :
  vncPresent (fst (release_held s)) = vncPresent s
  /\ cardkb_available (fst (release_held s)) = cardkb_available s.
Proof. unfold release_held. branch; split; reflexivity. Qed.

Lemma showInfoScreen_static cfg s :
  vncPresent (fst (showInfoScreen cfg s)) = vncPresent s
  /\ cardkb_available (fst (showInfoScreen cfg s)) = cardkb_available s.
Proof.
  unfold showInfoScreen, release_held, pauseVNCScreen.
  branch; cbn; branch; split; reflexivity.
Qed.

Lemma checkMultiTouch_static tk s :
  vncPresent (fst (checkMultiTouch tk s)) = vncPresent s
  /\ cardkb_available (fst (checkMultiTouch tk s)) = cardkb_available s.
Proof.
  unfold checkMultiTouch, showVNCScreen, resumeVNCScreen.
  branch; cbn; branch; split; reflexivity.
Qed.

Lemma checkSwipeGesture_static cfg tk s :
  vncPresent (fst (checkSwipeGesture cfg tk s)) = vncPresent s
  /\ cardkb_available (fst (checkSwipeGesture cfg tk s)) = cardkb_available s.
Proof.
  unfold checkSwipeGesture.
  destruct (negb (count (sample tk) =? 1)); [split; reflexivity|].
  destruct (isPressed (sample tk)); [|split; reflexivity].
  destruct (negb (swipeInProgress s)).
  - destruct (y (sample tk) <=? SWIPE_TOP_THRESHOLD); [|split; reflexivity].
    match goal with
    | |- context [release_held ?s0] =>
        destruct (release_held_static s0) as [A B]; rewrite A, B
    end.
    split; reflexivity.
  - match goal with |- context [if ?b then _ else _] => destruct b end.
    + pose proof (showInfoScreen_static cfg (set_screenJustSwitched true s)) as H.
      destruct (showInfoScreen cfg (set_screenJustSwitched true s)) as [s1 evs].
      exact H.
    + branch; split; reflexivity.
Qed.

Lemma loop_state cfg tk1 tk2 pressed c s :
  fst (loop cfg tk1 tk2 pressed c s)
  = fst (checkSwipeGesture cfg tk2 (fst (checkMultiTouch tk1 s))).
Proof.
  unfold loop.
  destruct (checkMultiTouch tk1 s) as [s1 e1]. cbn [fst].
  destruct (checkSwipeGesture cfg tk2 s1) as [s2 e2]. reflexivity.
Qed.

Lemma loop_events_cardkb cfg tk1 tk2 pressed c s e :
  In e (loop_cardkb c (fst (loop cfg tk1 tk2 pressed c s))) ->
  In e (snd (loop cfg tk1 tk2 pressed c s)).
Proof.
  unfold loop.
  destruct (checkMultiTouch tk1 s) as [s1 e1].
  destruct (checkSwipeGesture cfg tk2 s1) as [s2 e2]. cbn [fst snd].
  intros H. rewrite !in_app_iff. auto.
Qed.

(** C2 (the code departs from it).  The claim: a byte without a mapping is
    resolved to 0 and then dropped.  The code: [cardKBToKeysym] returns 0,
    and [loop] sends a press and a release of keysym 0 to the session. *)
Theorem unmapped_byte_is_sent_as_keysym_zero :
  forall cfg tk1 tk2 pressed c s,
    cardkb_available s = true ->
    vncPresent s = true ->
    0 < c <= 255 ->
    mapped c = false ->
    cardKBToKeysym c = 0
    /\ loop_cardkb c s = [keyEvent 0 1; delay 50; keyEvent 0 0]
    /\ In (keyEvent 0 1) (snd (loop cfg tk1 tk2 pressed c s))
    /\ In (keyEvent 0 0) (snd (loop cfg tk1 tk2 pressed c s)).
Proof.
  intros cfg tk1 tk2 pressed c s Hkb Hvnc Hc Hm.
  pose proof (cardKBToKeysym_unmapped c Hm) as Hk.
  assert (Hl : forall s', cardkb_available s' = true -> vncPresent s' = true ->
                 loop_cardkb c s' = [keyEvent 0 1; delay 50; keyEvent 0 0]).
  { intros s' H1 H2. unfold loop_cardkb. rewrite H1, H2, Hk.
    destruct (Z.eqb_spec c 0); [lia|]. reflexivity. }
  assert (Hs : cardkb_available (fst (loop cfg tk1 tk2 pressed c s)) = true
               /\ vncPresent (fst (loop cfg tk1 tk2 pressed c s)) = true).
  { rewrite loop_state.
    destruct (checkSwipeGesture_static cfg tk2 (fst (checkMultiTouch tk1 s))) as [A B].
    destruct (checkMultiTouch_static tk1 s) as [C D].
    rewrite A, B, C, D. auto. }
  destruct Hs as [Hs1 Hs2].
  repeat split.
  - exact Hk.
  - apply Hl; assumption.
  - apply loop_events_cardkb. rewrite (Hl _ Hs1 Hs2). cbn. auto.
  - apply loop_events_cardkb. rewrite (Hl _ Hs1 Hs2). cbn. auto.
Qed.

Lemma unmapped_byte_is_sent_as_keysym_zero_witness :
  cardKBToKeysym 1 = 0
  /\ loop_cardkb 1 (after_setup true) = [keyEvent 0 1; delay 50; keyEvent 0 0].
Proof.
  destruct (unmapped_byte_is_sent_as_keysym_zero
              (mkConfig "ssid" "192.168.1.100" "5900" 1280 720)
              (mkTick (mkTouch 0 0 0 false) 0 true)
              (mkTick (mkTouch 0 0 0 false) 0 true)
              false 1 (after_setup true))
    as (H1 & H2 & _); [reflexivity | reflexivity | lia | reflexivity |].
  split; [exact H1 | exact H2].
Defined.

(** C3 as stated fails: in live mode, three pointers after the debounce
    window leave the mode and the pause flag as they are and make no call
    to the surface; the session is asked for a full redraw. *)
Lemma three_finger_in_live_mode_counterexample :
  let s := after_setup false in
  let tk := mkTick (mkTouch 3 640 360 true) 1000 true in
  showingInfoScreen s = false
  /\ 3 <= count (sample tk)
  /\ THREE_TOUCH_DEBOUNCE < elapsed (now tk) (lastThreeTouchTime s)
  /\ showingInfoScreen (fst (checkMultiTouch tk s)) = false
  /\ vncScreenPaused (fst (checkMultiTouch tk s)) = false
  /\ vncDisplay (fst (checkMultiTouch tk s)) = Some (setPaused false init)
  /\ snd (checkMultiTouch tk s) = [forceFullUpdate].
Proof.
  repeat split; vm_compute; try reflexivity; discriminate.
Qed.

(** C3, amended.  In live mode, three or more pointers more than 500 ms
    after the last toggle refresh the debounce time and, when the session
    is connected, ask it for one full redraw; the mode, the pause flag, the
    transition guard and the surface are left as they are.  On the info
    screen the same gesture sets the guard and returns to the live view. *)
Theorem three_finger_in_live_mode_forces_refresh :
  forall tk s,
    3 <= count (sample tk) ->
    THREE_TOUCH_DEBOUNCE < elapsed (now tk) (lastThreeTouchTime s) ->
    (showingInfoScreen s = false ->
       checkMultiTouch tk s
       = (set_lastThreeTouchTime (now tk) s,
          if vncPresent s && connected tk then [forceFullUpdate] else [])
       /\ showingInfoScreen (fst (checkMultiTouch tk s)) = false
       /\ vncDisplay (fst (checkMultiTouch tk s)) = vncDisplay s
       /\ vncScreenPaused (fst (checkMultiTouch tk s)) = vncScreenPaused s
       /\ screenJustSwitched (fst (checkMultiTouch tk s)) = screenJustSwitched s
       /\ filter is_display (snd (checkMultiTouch tk s)) = [])
    /\ (showingInfoScreen s = true ->
          checkMultiTouch tk s
          = showVNCScreen (connected tk)
              (set_screenJustSwitched true (set_lastThreeTouchTime (now tk) s))).
Proof.
  intros tk s Hc Hd.
  assert (E3 : (3 <=? count (sample tk)) = true) by (apply Z.leb_le; exact Hc).
  assert (Ed : (THREE_TOUCH_DEBOUNCE <? elapsed (now tk) (lastThreeTouchTime s)) = true)
    by (apply Z.ltb_lt; exact Hd).
  split; intros Hs.
  - assert (E : checkMultiTouch tk s
                = (set_lastThreeTouchTime (now tk) s,
                   if vncPresent s && connected tk then [forceFullUpdate] else [])).
    { unfold checkMultiTouch. rewrite E3, Ed. cbn. rewrite Hs.
      destruct (vncPresent s && connected tk); reflexivity. }
    rewrite E. cbn. repeat split; try assumption.
    destruct (vncPresent s && connected tk); reflexivity.
  - unfold checkMultiTouch. rewrite E3, Ed. cbn. rewrite Hs. reflexivity.
Qed.

Lemma three_finger_in_live_mode_forces_refresh_witness :
  checkMultiTouch (mkTick (mkTouch 3 640 360 true) 1000 true) (after_setup false)
  = (set_lastThreeTouchTime 1000 (after_setup false), [forceFullUpdate]).
Proof.
  destruct (three_finger_in_live_mode_forces_refresh
              (mkTick (mkTouch 3 640 360 true) 1000 true) (after_setup false))
    as [H _].
  - cbn. lia.
  - vm_compute. reflexivity.
  - destruct (H eq_refl) as [E _]. exact E.
Defined.

(** C9.  A resume ([resumeVNCScreen] with a driver to resume, also through
    [showVNCScreen]) clears the pause flag and asks the session for a full
    redraw once when the session is connected, and not at all when it is
    not. *)
Theorem resume_requests_one_full_redraw :
  forall conn s d,
    vncDisplay s = Some d ->
    vncDisplay (fst (resumeVNCScreen conn s)) = Some (setPaused false d)
    /\ vncScreenPaused (fst (resumeVNCScreen conn s)) = false
    /\ (vncPresent s && conn = true ->
          full_redraws (snd (resumeVNCScreen conn s)) = 1%nat
          /\ full_redraws (snd (showVNCScreen conn s)) = 1%nat)
    /\ (vncPresent s && conn = false ->
          full_redraws (snd (resumeVNCScreen conn s)) = 0%nat
          /\ full_redraws (snd (showVNCScreen conn s)) = 0%nat).
Proof.
  intros conn s d Hd.
  unfold showVNCScreen, resumeVNCScreen. cbn. rewrite Hd.
  destruct (vncPresent s && conn); cbn; repeat split; try reflexivity;
    intros; discriminate.
Qed.

Lemma resume_requests_one_full_redraw_witness :
  full_redraws (snd (resumeVNCScreen true (pauseVNCScreen (after_setup false))))
  = 1%nat
  /\ full_redraws (snd (resumeVNCScreen false (pauseVNCScreen (after_setup false))))
     = 0%nat.
Proof.
  split.
  - destruct (resume_requests_one_full_redraw true
                (pauseVNCScreen (after_setup false)) (setPaused true init) eq_refl)
      as (_ & _ & H & _).
    destruct (H eq_refl) as [H1 _]. exact H1.
  - destruct (resume_requests_one_full_redraw false
                (pauseVNCScreen (after_setup false)) (setPaused true init) eq_refl)
      as (_ & _ & _ & H).
    destruct (H eq_refl) as [H1 _]. exact H1.
Defined.

(** ** The transition guard *)

Lemma handleTouch_guarded tk s :
  screenJustSwitched s = true ->
  snd (handleTouch tk s) = []
  /\ (count (sample tk) <> 0 -> fst (handleTouch tk s) = s).
Proof.
  intros Hg. unfold handleTouch.
  destruct (negb (vncPresent s)); [split; reflexivity|].
  destruct (swipeInProgress s); [split; reflexivity|].
  rewrite Hg.
  destruct (Z.eqb_spec (count (sample tk)) 0); split; try reflexivity.
  intros; contradiction.
Qed.

Lemma showInfoScreen_guard cfg s :
  screenJustSwitched (fst (showInfoScreen cfg s)) = screenJustSwitched s.
Proof.
  unfold showInfoScreen, release_held, pauseVNCScreen.
  branch; cbn; branch; reflexivity.
Qed.

Lemma checkMultiTouch_keeps_guard tk s :
  screenJustSwitched s = true ->
  screenJustSwitched (fst (checkMultiTouch tk s)) = true.
Proof.
  intros Hg. unfold checkMultiTouch, showVNCScreen, resumeVNCScreen.
  branch; cbn; branch; cbn; auto.
Qed.

Lemma checkSwipeGesture_keeps_guard cfg tk s :
  screenJustSwitched s = true ->
  screenJustSwitched (fst (checkSwipeGesture cfg tk s)) = true.
Proof.
  intros Hg. unfold checkSwipeGesture.
  destruct (negb (count (sample tk) =? 1)); [exact Hg|].
  destruct (isPressed (sample tk)); [|exact Hg].
  destruct (negb (swipeInProgress s)).
  - destruct (y (sample tk) <=? SWIPE_TOP_THRESHOLD); [|exact Hg].
    unfold release_held. branch; exact Hg.
  - match goal with |- context [if ?b then _ else _] => destruct b end.
    + pose proof (showInfoScreen_guard cfg (set_screenJustSwitched true s)) as H.
      destruct (showInfoScreen cfg (set_screenJustSwitched true s)) as [s1 evs].
      cbn in *. exact H.
    + branch; exact Hg.
Qed.

Lemma loop_keeps_guard cfg tk1 tk2 pressed c s :
  screenJustSwitched s = true ->
  screenJustSwitched (fst (loop cfg tk1 tk2 pressed c s)) = true.
Proof.
  intros Hg. rewrite loop_state.
  apply checkSwipeGesture_keeps_guard, checkMultiTouch_keeps_guard, Hg.
Qed.

Lemma interleave_guarded cfg acts : forall s,
  screenJustSwitched s = true ->
  Forall touched acts ->
  screenJustSwitched (fst (interleave cfg acts s)) = true
  /\ Forall (fun r => snd r = []) (snd (interleave cfg acts s)).
Proof.
  induction acts as [|a acts IH]; intros s Hg Ht.
  - split; [exact Hg|constructor].
  - inversion Ht as [|a' acts' Ha Hrest]; subst.
    destruct a as [tk1 tk2 pressed c|tk]; cbn [interleave].
    + apply IH; [apply loop_keeps_guard; exact Hg | exact Hrest].
    + cbn [touched] in Ha.
      destruct (handleTouch_guarded tk s Hg) as [He Hs].
      specialize (Hs Ha).
      destruct (handleTouch tk s) as [s1 e1]. cbn [fst snd] in He, Hs. subst.
      destruct (IH s Hg Hrest) as [G F].
      destruct (interleave cfg acts s) as [s2 r]. cbn [fst snd] in *.
      split; [exact G|]. constructor; [reflexivity|exact F].
Qed.

(** C6.  Once the transition guard is set, a run of [handleTouch] sends
    nothing; with a nonzero touch count it leaves the state as it is, so
    the guard stays set through any schedule of [loop] iterations and
    [handleTouch] runs whose touch counts are nonzero, however long; and a
    run that sees a touch count of 0 clears the guard, again sending
    nothing. *)
Theorem transition_guard_suppresses_dispatch :
  forall s,
    screenJustSwitched s = true ->
    (forall tk, snd (handleTouch tk s) = [])
    /\ (forall tk, count (sample tk) <> 0 -> handleTouch tk s = (s, []))
    /\ (forall cfg acts,
          Forall touched acts ->
          screenJustSwitched (fst (interleave cfg acts s)) = true
          /\ Forall (fun r => snd r = []) (snd (interleave cfg acts s)))
    /\ (forall tk,
          count (sample tk) = 0 ->
          vncPresent s = true -> swipeInProgress s = false ->
          handleTouch tk s = (set_screenJustSwitched false s, []))
    /\ (forall cfg tk,
          count (sample tk) = 0 ->
          vncPresent s = true ->
          handleTouch tk (fst (checkSwipeGesture cfg tk s))
          = (set_screenJustSwitched false (fst (checkSwipeGesture cfg tk s)),
             [])).
Proof.
  intros s Hg. repeat split.
  - intros tk. apply handleTouch_guarded. exact Hg.
  - intros tk Hc. destruct (handleTouch_guarded tk s Hg) as [He Hs].
    specialize (Hs Hc). destruct (handleTouch tk s); cbn in *. congruence.
  - apply interleave_guarded; assumption.
  - apply interleave_guarded; assumption.
  - intros tk Hc Hv Hsw. unfold handleTouch. rewrite Hv, Hsw, Hg, Hc. reflexivity.
  - intros cfg tk Hc Hv. unfold checkSwipeGesture. rewrite Hc. cbn.
    unfold handleTouch. cbn. rewrite Hv, Hg, Hc. reflexivity.
Qed.

Lemma transition_guard_suppresses_dispatch_witness :
  let s := set_screenJustSwitched true (after_setup false) in
  let held := mkTick (mkTouch 1 300 200 true) 2000 true in
  let free := mkTick (mkTouch 0 300 200 false) 2100 true in
  handleTouch held s = (s, [])
  /\ handleTouch free s = (after_setup false, []).
Proof.
  destruct (transition_guard_suppresses_dispatch
              (set_screenJustSwitched true (after_setup false)) eq_refl)
    as (_ & H2 & _ & H4 & _).
  split.
  - apply H2. cbn. lia.
  - apply H4; reflexivity.
Defined.

(** ** Two-finger scroll *)

(** What a run of [handleTouch] does to the time of the last wheel step:
    it becomes [now] when a wheel step is sent, which takes the interval
    to have passed, and it is kept otherwise. *)
Lemma handleTouch_scroll_time tk s :
  (is_scroll_tick (snd (handleTouch tk s)) = true ->
     SCROLL_MIN_INTERVAL <= elapsed (now tk) (lastScrollTime s)
     /\ lastScrollTime (fst (handleTouch tk s)) = now tk)
  /\ (is_scroll_tick (snd (handleTouch tk s)) = false ->
        lastScrollTime (fst (handleTouch tk s)) = lastScrollTime s).
Proof.
  unfold handleTouch.
  destruct (negb (vncPresent s)); [split; [discriminate|reflexivity]|].
  destruct (swipeInProgress s); [split; [discriminate|reflexivity]|].
  destruct (screenJustSwitched s).
  { destruct (count (sample tk) =? 0); split; try discriminate; reflexivity. }
  destruct (count (sample tk) =? 2).
  - destruct (negb (twoFingerScrollActive s)).
    + cbn. destruct (wasTouched s); split; try discriminate; reflexivity.
    + destruct (SCROLL_THRESHOLD <=? Z.abs (i32 (lastScrollY s - y (sample tk))));
        cbn [andb]; [|split; [discriminate|reflexivity]].
      destruct (SCROLL_MIN_INTERVAL <=? elapsed (now tk) (lastScrollTime s)) eqn:Ei;
        [|split; [discriminate|reflexivity]].
      apply Z.leb_le in Ei.
      destruct (0 <? i32 (lastScrollY s - y (sample tk))); cbn;
        (split; [intros _; split; [exact Ei|reflexivity] | discriminate]).
  - destruct (twoFingerScrollActive s);
      destruct ((count (sample tk) =? 1) && isPressed (sample tk)); cbn;
      branch; cbn; split; try discriminate; reflexivity.
Qed.

Lemma showInfoScreen_scroll_time cfg s :
  lastScrollTime (fst (showInfoScreen cfg s)) = lastScrollTime s.
Proof.
  unfold showInfoScreen, release_held, pauseVNCScreen.
  branch; cbn; branch; reflexivity.
Qed.

Lemma checkMultiTouch_scroll_time tk s :
  lastScrollTime (fst (checkMultiTouch tk s)) = lastScrollTime s.
Proof.
  unfold checkMultiTouch, showVNCScreen, resumeVNCScreen.
  branch; cbn; branch; reflexivity.
Qed.

Lemma checkSwipeGesture_scroll_time cfg tk s :
  lastScrollTime (fst (checkSwipeGesture cfg tk s)) = lastScrollTime s.
Proof.
  unfold checkSwipeGesture.
  destruct (negb (count (sample tk) =? 1)); [reflexivity|].
  destruct (isPressed (sample tk)); [|reflexivity].
  destruct (negb (swipeInProgress s)).
  - destruct (y (sample tk) <=? SWIPE_TOP_THRESHOLD); [|reflexivity].
    unfold release_held. branch; reflexivity.
  - match goal with |- context [if ?b then _ else _] => destruct b end.
    + pose proof (showInfoScreen_scroll_time cfg (set_screenJustSwitched true s)) as H.
      destruct (showInfoScreen cfg (set_screenJustSwitched true s)) as [s1 evs].
      cbn in *. exact H.
    + branch; reflexivity.
Qed.

Lemma loop_scroll_time cfg tk1 tk2 pressed c s :
  lastScrollTime (fst (loop cfg tk1 tk2 pressed c s)) = lastScrollTime s.
Proof.
  rewrite loop_state, checkSwipeGesture_scroll_time.
  apply checkMultiTouch_scroll_time.
Qed.

Lemma interleave_spaced cfg acts : forall s,
  spaced (lastScrollTime s) (scroll_times (snd (interleave cfg acts s))).
Proof.
  induction acts as [|a acts IH]; intros s.
  - exact I.
  - destruct a as [tk1 tk2 pressed c|tk]; cbn [interleave].
    + rewrite <- (loop_scroll_time cfg tk1 tk2 pressed c s). apply IH.
    + destruct (handleTouch_scroll_time tk s) as [Hy Hn].
      destruct (handleTouch tk s) as [s1 e1]. cbn [fst snd] in Hy, Hn.
      specialize (IH s1).
      destruct (interleave cfg acts s1) as [s2 r]. cbn [fst snd] in *.
      unfold scroll_times. cbn [filter snd].
      destruct (is_scroll_tick e1).
      * destruct (Hy eq_refl) as [Hi Ht]. cbn [map fst spaced].
        rewrite Ht in IH. split; [exact Hi|exact IH].
      * rewrite (Hn eq_refl) in IH. exact IH.
Qed.

(** C7.  During a two-finger scroll a run of [handleTouch] sends a wheel
    step exactly when the pointer is at least 50 px from the anchor
    [lastScrollY] and at least 100 ms have passed since the last wheel
    step; it then moves the anchor to the current Y and the time of the
    last step to now, and otherwise does nothing.  So in every schedule
    each wheel step comes at least 100 ms after the one before it. *)
Theorem two_finger_scroll_threshold_and_interval :
  (forall tk s,
     vncPresent s = true -> swipeInProgress s = false ->
     screenJustSwitched s = false ->
     twoFingerScrollActive s = true -> count (sample tk) = 2 ->
     in_i16 (y (sample tk)) -> in_i16 (lastScrollY s) ->
     let t := sample tk in
     (is_scroll_tick (snd (handleTouch tk s)) = true
      <-> SCROLL_THRESHOLD <= Z.abs (lastScrollY s - y t)
          /\ SCROLL_MIN_INTERVAL <= elapsed (now tk) (lastScrollTime s))
     /\ (is_scroll_tick (snd (handleTouch tk s)) = true ->
           handleTouch tk s
           = (set_lastScrollTime (now tk) (set_lastScrollY (y t) s),
              scroll_tick t (if 0 <? lastScrollY s - y t then 8 else 16)))
     /\ (is_scroll_tick (snd (handleTouch tk s)) = false ->
           handleTouch tk s = (s, [])))
  /\ (forall cfg acts s,
        spaced (lastScrollTime s) (scroll_times (snd (interleave cfg acts s)))).
Proof.
  split; [|intros; apply interleave_spaced].
  intros tk s Hv Hsw Hg Ha Hc Hy Hl t. subst t.
  unfold handleTouch. rewrite Hv, Hsw, Hg, Ha, Hc. cbn [negb Z.eqb Pos.eqb].
  rewrite (i32_sub_i16 _ _ Hl Hy).
  destruct (Z.leb_spec SCROLL_THRESHOLD (Z.abs (lastScrollY s - y (sample tk))));
    destruct (Z.leb_spec SCROLL_MIN_INTERVAL (elapsed (now tk) (lastScrollTime s)));
    cbn [andb].
  - destruct (0 <? lastScrollY s - y (sample tk)); cbn;
      repeat split; auto; discriminate.
  - cbn. repeat split; try discriminate; try reflexivity. intros [_ ?]. lia.
  - cbn. repeat split; try discriminate; try reflexivity. intros [? _]. lia.
  - cbn. repeat split; try discriminate; try reflexivity. intros [? _]. lia.
Qed.

Lemma two_finger_scroll_threshold_and_interval_witness :
  let s :=
    set_lastScrollTime 1000
      (set_lastScrollY 300 (set_twoFingerScrollActive true (after_setup false))) in
  let t := mkTouch 2 640 240 true in
  handleTouch (mkTick t 1200 true) s
  = (set_lastScrollTime 1200 (set_lastScrollY 240 s), scroll_tick t 8)
  /\ handleTouch (mkTick t 1050 true) s = (s, []).
Proof.
  destruct two_finger_scroll_threshold_and_interval as [H _].
  assert (Hy : in_i16 240) by (unfold in_i16; lia).
  assert (Hl : in_i16 300) by (unfold in_i16; lia).
  split.
  - destruct (H (mkTick (mkTouch 2 640 240 true) 1200 true)
                (set_lastScrollTime 1000
                   (set_lastScrollY 300
                      (set_twoFingerScrollActive true (after_setup false))))
                eq_refl eq_refl eq_refl eq_refl eq_refl Hy Hl)
      as (_ & E & _).
    apply E. reflexivity.
  - destruct (H (mkTick (mkTouch 2 640 240 true) 1050 true)
                (set_lastScrollTime 1000
                   (set_lastScrollY 300
                      (set_twoFingerScrollActive true (after_setup false))))
                eq_refl eq_refl eq_refl eq_refl eq_refl Hy Hl)
      as (_ & _ & E).
    apply E. reflexivity.
Defined.

(** ** Top-edge swipe *)

(** [showInfoScreen] switches to the info screen, pauses the driver and
    ends by drawing the connection information. *)
Lemma showInfoScreen_opens cfg s :
  showingInfoScreen (fst (showInfoScreen cfg s)) = true
  /\ (forall d, vncDisplay s = Some d ->
        vncDisplay (fst (showInfoScreen cfg s)) = Some (setPaused true d))
  /\ exists pre,
       snd (showInfoScreen cfg s)
       = pre ++ map display
                  (displayConnectionInfo cfg (fst (showInfoScreen cfg s))).
Proof.
  unfold showInfoScreen.
  destruct (release_held s) as [s1 released] eqn:Er.
  cbn [fst snd]. split; [|split].
  - unfold pauseVNCScreen. branch; reflexivity.
  - intros d Hd.
    assert (Hd1 : vncDisplay s1 = Some d).
    { unfold release_held in Er. destruct (vncPresent s && wasTouched s);
        inversion Er; subst; exact Hd. }
    unfold pauseVNCScreen.
    destruct (twoFingerScrollActive s1); cbn; rewrite Hd1; reflexivity.
  - exists (released ++ [delay 50]). rewrite <- app_assoc. reflexivity.
Qed.

(** C8.  A press of a single pointer at [y <= 50] starts a swipe.  While
    it is in progress: a tick with one pointer pressed that is at least
    100 px below the start, less than 100 px to its side and less than
    1000 ms after it sets the guard, opens the info screen and ends the
    swipe; a tick at 1000 ms or later, a tick whose touch count is not 1
    and a tick with the pointer released end the swipe and do nothing
    else; any other tick leaves it in progress. *)
Theorem swipe_down_opens_overlay_or_cancels :
  (forall cfg tk s,
     swipeInProgress s = false ->
     count (sample tk) = 1 -> isPressed (sample tk) = true ->
     y (sample tk) <= SWIPE_TOP_THRESHOLD ->
     let s' := fst (checkSwipeGesture cfg tk s) in
     swipeInProgress s' = true
     /\ swipeStartX s' = x (sample tk)
     /\ swipeStartY s' = y (sample tk)
     /\ swipeStartTime s' = now tk
     /\ showingInfoScreen s' = showingInfoScreen s)
  /\ (forall cfg tk s,
        swipeInProgress s = true ->
        in_i16 (x (sample tk)) -> in_i16 (y (sample tk)) ->
        in_i16 (swipeStartX s) -> in_i16 (swipeStartY s) ->
        let t := sample tk in
        let dy := y t - swipeStartY s in
        let dx := Z.abs (x t - swipeStartX s) in
        let dt := elapsed (now tk) (swipeStartTime s) in
        let opened := showInfoScreen cfg (set_screenJustSwitched true s) in
        (count t = 1 -> isPressed t = true ->
         SWIPE_MIN_DISTANCE <= dy -> dx < SWIPE_MIN_DISTANCE ->
         dt < SWIPE_MAX_TIME ->
           checkSwipeGesture cfg tk s
           = (set_swipeInProgress false (fst opened), snd opened)
           /\ showingInfoScreen (fst (checkSwipeGesture cfg tk s)) = true
           /\ screenJustSwitched (fst (checkSwipeGesture cfg tk s)) = true
           /\ swipeInProgress (fst (checkSwipeGesture cfg tk s)) = false
           /\ (forall d, vncDisplay s = Some d ->
                 vncDisplay (fst (checkSwipeGesture cfg tk s))
                 = Some (setPaused true d))
           /\ exists pre,
                snd (checkSwipeGesture cfg tk s)
                = pre ++ map display (displayConnectionInfo cfg (fst opened)))
        /\ (count t = 1 -> isPressed t = true -> SWIPE_MAX_TIME <= dt ->
              checkSwipeGesture cfg tk s = (set_swipeInProgress false s, []))
        /\ (count t <> 1 ->
              checkSwipeGesture cfg tk s = (set_swipeInProgress false s, []))
        /\ (count t = 1 -> isPressed t = false ->
              checkSwipeGesture cfg tk s = (set_swipeInProgress false s, []))
        /\ (count t = 1 -> isPressed t = true -> dt < SWIPE_MAX_TIME ->
            ~ (SWIPE_MIN_DISTANCE <= dy /\ dx < SWIPE_MIN_DISTANCE) ->
              checkSwipeGesture cfg tk s = (s, []))).
Proof.
  split.
  - intros cfg tk s Hsw Hc Hp Hy s'. subst s'.
    unfold checkSwipeGesture. rewrite Hc, Hp, Hsw. cbn [Z.eqb Pos.eqb negb].
    apply Z.leb_le in Hy. rewrite Hy.
    unfold release_held. cbn.
    destruct (vncPresent s && wasTouched s); cbn; repeat split; reflexivity.
  - intros cfg tk s Hsw Hx Hy Hsx Hsy t dy dx dt opened.
    subst t dy dx dt.
    assert (Ey : i32 (y (sample tk) - swipeStartY s) = y (sample tk) - swipeStartY s)
      by (apply i32_sub_i16; assumption).
    assert (Ex : i32 (x (sample tk) - swipeStartX s) = x (sample tk) - swipeStartX s)
      by (apply i32_sub_i16; assumption).
    repeat apply conj.
    + intros Hc Hp Hdy Hdx Hdt.
      assert (E : checkSwipeGesture cfg tk s
                  = (set_swipeInProgress false (fst opened), snd opened)).
      { unfold checkSwipeGesture. rewrite Hc, Hp, Hsw, Ex, Ey.
        cbn [Z.eqb Pos.eqb negb].
        apply Z.leb_le in Hdy. apply Z.ltb_lt in Hdx. apply Z.ltb_lt in Hdt.
        rewrite Hdy, Hdx, Hdt. cbn [andb]. subst opened.
        destruct (showInfoScreen cfg (set_screenJustSwitched true s)).
        reflexivity. }
      rewrite E. cbn [fst snd]. subst opened.
      destruct (showInfoScreen_opens cfg (set_screenJustSwitched true s))
        as (Ho & Hd & Hr).
      split; [reflexivity|]. split; [|split; [|split; [|split]]].
      * exact Ho.
      * cbn. rewrite showInfoScreen_guard. reflexivity.
      * reflexivity.
      * intros d Hs. cbn. apply Hd. exact Hs.
      * exact Hr.
    + intros Hc Hp Hdt.
      unfold checkSwipeGesture. rewrite Hc, Hp, Hsw. cbn [Z.eqb Pos.eqb negb].
      destruct (Z.ltb_spec (elapsed (now tk) (swipeStartTime s)) SWIPE_MAX_TIME);
        [lia|].
      rewrite andb_false_r.
      apply Z.leb_le in Hdt. rewrite Hdt. reflexivity.
    + intros Hc. unfold checkSwipeGesture.
      destruct (Z.eqb_spec (count (sample tk)) 1); [contradiction|reflexivity].
    + intros Hc Hp. unfold checkSwipeGesture. rewrite Hc, Hp. reflexivity.
    + intros Hc Hp Hdt Hn.
      unfold checkSwipeGesture. rewrite Hc, Hp, Hsw, Ex, Ey.
      cbn [Z.eqb Pos.eqb negb].
      destruct (Z.leb_spec SWIPE_MIN_DISTANCE (y (sample tk) - swipeStartY s));
        destruct (Z.ltb_spec (Z.abs (x (sample tk) - swipeStartX s)) SWIPE_MIN_DISTANCE);
        cbn [andb]; try (exfalso; apply Hn; split; assumption);
        destruct (Z.leb_spec SWIPE_MAX_TIME (elapsed (now tk) (swipeStartTime s)));
        try lia; reflexivity.
Qed.

Lemma swipe_down_opens_overlay_or_cancels_witness :
  let cfg := mkConfig "ssid" "192.168.1.100" "5900" 1280 720 in
  let s1 :=
    fst (checkSwipeGesture cfg (mkTick (mkTouch 1 100 10 true) 5000 true)
           (after_setup false)) in
  swipeInProgress s1 = true
  /\ showingInfoScreen
       (fst (checkSwipeGesture cfg (mkTick (mkTouch 1 120 150 true) 5400 true) s1))
     = true
  /\ checkSwipeGesture cfg (mkTick (mkTouch 1 120 150 true) 6200 true) s1
     = (set_swipeInProgress false s1, []).
Proof.
  intros cfg s1.
  destruct swipe_down_opens_overlay_or_cancels as [Hstart Hrun].
  assert (H10 : in_i16 10) by (unfold in_i16; lia).
  assert (H100 : in_i16 100) by (unfold in_i16; lia).
  assert (H120 : in_i16 120) by (unfold in_i16; lia).
  assert (H150 : in_i16 150) by (unfold in_i16; lia).
  assert (Htop : 10 <= SWIPE_TOP_THRESHOLD) by (unfold SWIPE_TOP_THRESHOLD; lia).
  assert (Hdy : SWIPE_MIN_DISTANCE <= 150 - 10) by (unfold SWIPE_MIN_DISTANCE; lia).
  assert (Hdx : Z.abs (120 - 100) < SWIPE_MIN_DISTANCE)
    by (unfold SWIPE_MIN_DISTANCE; lia).
  assert (Hin : elapsed 5400 5000 < SWIPE_MAX_TIME) by reflexivity.
  assert (Hout : SWIPE_MAX_TIME <= elapsed 6200 5000) by (vm_compute; discriminate).
  split; [|split].
  - exact (proj1 (Hstart cfg (mkTick (mkTouch 1 100 10 true) 5000 true)
                    (after_setup false) eq_refl eq_refl eq_refl Htop)).
  - pose proof (Hrun cfg (mkTick (mkTouch 1 120 150 true) 5400 true) s1
                  eq_refl H120 H150 H100 H10) as (Hopen & _).
    exact (proj1 (proj2 (Hopen eq_refl eq_refl Hdy Hdx Hin))).
  - pose proof (Hrun cfg (mkTick (mkTouch 1 120 150 true) 6200 true) s1
                  eq_refl H120 H150 H100 H10) as (_ & Hlate & _).
    exact (Hlate eq_refl eq_refl Hout).
Defined.

(** * Further properties of the code *)

(** ** The byte swap *)

Lemma u16_bits_high c n : 0 <= c < 2 ^ 16 -> 16 <= n -> Z.testbit c n = false.
Proof.
  intros Hc Hn. rewrite <- (Z.mod_small c (2 ^ 16)) by exact Hc.
  apply Z.mod_pow2_bits_high. lia.
Qed.

Lemma swap16_testbit c n :
  0 <= c < 2 ^ 16 -> 0 <= n ->
  Z.testbit (swap16 c) n
  = if n <? 8 then Z.testbit c (n + 8)
    else if n <? 16 then Z.testbit c (n - 8) else false.
Proof.
  intros Hc Hn. unfold swap16, u16.
  destruct (Z.ltb_spec n 8); [|destruct (Z.ltb_spec n 16)].
  - rewrite Z.mod_pow2_bits_low by lia.
    rewrite Z.lor_spec, Z.shiftr_spec, Z.shiftl_spec by lia.
    rewrite (Z.testbit_neg_r c (n - 8)) by lia. apply orb_false_r.
  - rewrite Z.mod_pow2_bits_low by lia.
    rewrite Z.lor_spec, Z.shiftr_spec, Z.shiftl_spec by lia.
    rewrite (u16_bits_high c (n + 8)) by lia. reflexivity.
  - apply Z.mod_pow2_bits_high. lia.
Qed.

Lemma swap16_range c : 0 <= swap16 c < 2 ^ 16.
Proof. unfold swap16, u16. apply Z.mod_pos_bound. reflexivity. Qed.

(** X1.  Swapping the bytes of a 16-bit colour twice gives the colour back;
    bit [n] of the swapped colour is bit [n + 8] of the colour for the low
    byte and bit [n - 8] for the high byte. *)
Theorem swap16_involutive :
  forall c,
    0 <= c < 2 ^ 16 ->
    swap16 (swap16 c) = c
    /\ (forall n, 0 <= n < 8 ->
          Z.testbit (swap16 c) n = Z.testbit c (n + 8)
          /\ Z.testbit (swap16 c) (n + 8) = Z.testbit c n).
Proof.
  intros c Hc. split.
  - apply Z.bits_inj'. intros n Hn.
    rewrite swap16_testbit by (try apply swap16_range; lia).
    destruct (Z.ltb_spec n 8); [|destruct (Z.ltb_spec n 16)].
    + rewrite swap16_testbit by lia.
      destruct (Z.ltb_spec (n + 8) 8); [lia|].
      destruct (Z.ltb_spec (n + 8) 16); [|lia].
      f_equal. lia.
    + rewrite swap16_testbit by lia.
      destruct (Z.ltb_spec (n - 8) 8); [|lia].
      f_equal. lia.
    + symmetry. apply u16_bits_high; lia.
  - intros n Hn. rewrite !swap16_testbit by lia.
    destruct (Z.ltb_spec n 8); [|lia].
    destruct (Z.ltb_spec (n + 8) 8); [lia|].
    destruct (Z.ltb_spec (n + 8) 16); [|lia].
    split; [reflexivity|]. f_equal. lia.
Qed.

Lemma swap16_involutive_witness :
  swap16 (swap16 0xF81F) = 0xF81F.
Proof.
  apply (swap16_involutive 0xF81F). lia.
Defined.

(** ** One-shot and streamed updates *)

Lemma read16_app pre data post i :
  0 <= i < Z.of_nat (List.length data) ->
  read16 (pre ++ data ++ post) (Z.of_nat (List.length pre) + i) = read16 data i.
Proof.
  intros Hi. unfold read16.
  replace (Z.to_nat (Z.of_nat (List.length pre) + i))
    with (List.length pre + Z.to_nat i)%nat by lia.
  rewrite nth_error_app2 by lia.
  replace (List.length pre + Z.to_nat i - List.length pre)%nat
    with (Z.to_nat i) by lia.
  rewrite nth_error_app1 by lia. reflexivity.
Qed.

(** The loop of a feed is the loop of [draw_area] on the whole buffer,
    taken up where the counter stands. *)
Lemma area_update_loop_shift d pre data post n : forall i,
  0 < _updateW d ->
  _pixelCount d = Z.of_nat (List.length pre) ->
  0 <= i ->
  _pixelCount d + i + Z.of_nat n <= 2 ^ 32 ->
  i + Z.of_nat n <= Z.of_nat (List.length data) ->
  area_update_loop d data n i
  = draw_area_loop (_updateX d) (_updateY d) (_updateW d)
      (pre ++ data ++ post) n (_pixelCount d + i).
Proof.
  induction n as [|n IH]; intros i Hw Hp Hi Hmax Hlen; [reflexivity|].
  cbn [area_update_loop draw_area_loop].
  rewrite (u32_small (_pixelCount d + i)) by (unfold in_u32; lia).
  rewrite !umod_ok, !udiv_ok by lia.
  replace (read16 (pre ++ data ++ post) (_pixelCount d + i))
    with (read16 data i)
    by (rewrite Hp; symmetry; apply read16_app; lia).
  rewrite (IH (i + 1)) by lia.
  replace (_pixelCount d + (i + 1)) with (_pixelCount d + i + 1) by lia.
  destruct (read16 data i); reflexivity.
Qed.

Lemma draw_area_loop_app x y w pixels n m : forall i a b,
  draw_area_loop x y w pixels n i = Ok a ->
  draw_area_loop x y w pixels m (i + Z.of_nat n) = Ok b ->
  draw_area_loop x y w pixels (n + m) i = Ok (a ++ b).
Proof.
  induction n as [|n IH]; intros i a b Ha Hb.
  - cbn in Ha. inversion Ha; subst. rewrite Z.add_0_r in Hb. exact Hb.
  - cbn [Nat.add draw_area_loop] in *.
    destruct (read16 pixels i) as [c|]; [cbn [bind] in *|discriminate].
    destruct (umod i w) as [r|]; [cbn [bind] in *|discriminate].
    destruct (udiv i w) as [q|]; [cbn [bind] in *|discriminate].
    destruct (draw_area_loop x y w pixels n (i + 1)) as [rest|] eqn:Er;
      [cbn [bind] in *|discriminate].
    inversion Ha; subst.
    rewrite (IH (i + 1) rest b Er).
    + reflexivity.
    + rewrite <- Hb. f_equal. lia.
Qed.

Lemma run_app os1 : forall d os2,
  run d (os1 ++ os2)
  = (r1 <- run d os1 ;;
     r2 <- run (fst r1) os2 ;;
     Ok (fst r2, snd r1 ++ snd r2)).
Proof.
  induction os1 as [|o os1 IH]; intros d os2.
  - cbn. destruct (run d os2) as [[d' c]|]; reflexivity.
  - cbn [app run]. destruct (step d o) as [[d1 c1]|]; [|reflexivity].
    cbn [bind fst snd]. rewrite IH.
    destruct (run d1 os1) as [[d2 c2]|]; [|reflexivity]. cbn [bind fst snd].
    destruct (run d2 os2) as [[d3 c3]|]; [|reflexivity]. cbn [bind fst snd].
    rewrite app_assoc. reflexivity.
Qed.

(** A chunk that announces exactly the pixels its buffer holds. *)
Lemma exact_chunks_ok chunks :
  Forall (fun c => snd c = Z.of_nat (List.length (fst c))) chunks ->
  Forall chunk_ok chunks
  /\ total chunks = Z.of_nat (List.length (List.concat (map fst chunks))).
Proof.
  induction 1 as [|[data n] cs Hc _ [IH1 IH2]]; [split; [constructor|reflexivity]|].
  cbn [fst snd] in Hc. split.
  - constructor; [unfold chunk_ok; cbn; lia|exact IH1].
  - cbn [total fold_right snd map List.concat fst]. fold (total cs).
    rewrite length_app. lia.
Qed.

(** The feeds of a streamed update make the pixel writes of [draw_area]
    on the chunks' buffers put end to end. *)
Lemma feeds_as_draw_area chunks : forall d pre post,
  _isPaused d = false -> 0 < _updateW d ->
  _pixelCount d = Z.of_nat (List.length pre) ->
  Forall (fun c => snd c = Z.of_nat (List.length (fst c))) chunks ->
  _pixelCount d + total chunks < 2 ^ 32 ->
  exists calls,
    run d (feeds chunks)
    = Ok (set_pixelCount (_pixelCount d + total chunks) d, calls)
    /\ draw_area_loop (_updateX d) (_updateY d) (_updateW d)
         (pre ++ List.concat (map fst chunks) ++ post)
         (Z.to_nat (total chunks)) (_pixelCount d)
       = Ok calls.
Proof.
  induction chunks as [|[data n] rest IH]; intros d pre post Hu Hw Hp Hex Hmax.
  - exists []. split; [|reflexivity].
    cbn [feeds map run total fold_right]. rewrite Z.add_0_r.
    destruct d; reflexivity.
  - inversion Hex as [|c cs Hc Hrest]; subst. cbn [fst snd] in Hc.
    destruct (exact_chunks_ok rest Hrest) as [Hok Htot].
    pose proof (total_nonneg rest Hok) as Hr.
    cbn [total fold_right snd] in Hmax. fold (total rest) in Hmax.
    destruct (area_update_loop_ok d data (Z.to_nat n) 0) as (c1 & E1 & _);
      try lia.
    set (d1 := set_pixelCount (_pixelCount d + n) d).
    destruct (IH d1 (pre ++ data) post) as (c2 & E2 & L2).
    { exact Hu. } { exact Hw. }
    { subst d1. cbn. rewrite length_app. lia. }
    { exact Hrest. } { subst d1. cbn. lia. }
    exists (c1 ++ c2). split.
    + cbn [feeds map run step fst snd]. unfold area_update_data.
      rewrite Hu, E1. cbn [bind fst snd].
      rewrite (u32_small (_pixelCount d + n)) by (unfold in_u32; lia).
      fold d1. fold (feeds rest). rewrite E2. cbn [bind fst snd].
      subst d1. unfold set_pixelCount. cbn.
      cbn [total fold_right snd]. fold (total rest).
      do 3 f_equal. lia.
    + cbn [total fold_right snd map List.concat fst]. fold (total rest).
      rewrite Z2Nat.inj_add by lia.
      apply draw_area_loop_app.
      * rewrite <- E1.
        rewrite (area_update_loop_shift d pre data
                   (List.concat (map fst rest) ++ post) (Z.to_nat n) 0)
          by lia.
        rewrite Z.add_0_r, <- app_assoc. reflexivity.
      * rewrite <- L2. subst d1. cbn.
        rewrite Z2Nat.id by lia. rewrite <- !app_assoc. reflexivity.
Qed.

Lemma draw_area_loop_ok x y w h data :
  0 < w -> 0 <= h -> w * h < 2 ^ 32 ->
  w * h <= Z.of_nat (List.length data) ->
  exists body,
    draw_area_loop x y w data (Z.to_nat (w * h)) 0 = Ok body
    /\ forallb Gfx.is_writePixel body = true
    /\ Gfx.written body = map (row_major x y w) (zseq 0 (Z.to_nat (w * h))).
Proof.
  intros Hw Hh Hmax Hlen.
  assert (Hn : 0 <= w * h) by nia.
  destruct (area_update_loop_ok (mk false x y w h 0) data (Z.to_nat (w * h)) 0)
    as (body & E & F & W); cbn [_updateW _pixelCount]; try lia.
  exists body. split; [|split; [exact F|exact W]].
  rewrite <- E.
  rewrite (area_update_loop_shift (mk false x y w h 0) [] data []
             (Z.to_nat (w * h)) 0); cbn [_updateW _pixelCount List.length];
    try lia.
  cbn [_updateX _updateY app Z.add]. rewrite app_nil_r. reflexivity.
Qed.

(** X2.  [draw_area] on a driver that is not paused, for a rectangle of width
    [w > 0] whose buffer holds its [w * h] pixels: one write window, then
    one pixel write per position, in row-major order, no coordinate twice,
    then the end of the window. *)
Theorem draw_area_covers_rectangle :
  forall d x y w h data,
    _isPaused d = false ->
    0 < w -> 0 <= h -> w * h < 2 ^ 32 ->
    w * h <= Z.of_nat (List.length data) ->
    exists body,
      draw_area d x y w h data
      = Ok ([Gfx.startWrite; Gfx.setAddrWindow x y w h] ++ body ++ [Gfx.endWrite])
      /\ forallb Gfx.is_writePixel body = true
      /\ Gfx.written body = map (row_major x y w) (zseq 0 (Z.to_nat (w * h)))
      /\ NoDup (Gfx.written body)
      /\ List.length body = Z.to_nat (w * h).
Proof.
  intros d x y w h data Hu Hw Hh Hmax Hlen.
  destruct (draw_area_loop_ok x y w h data Hw Hh Hmax Hlen) as (body & E & F & W).
  exists body. unfold draw_area. rewrite Hu.
  rewrite (u32_small (w * h)) by (unfold in_u32; nia).
  rewrite E. cbn [bind]. repeat apply conj; auto.
  - rewrite W. apply row_major_NoDup; assumption.
  - assert (L : List.length (Gfx.written body) = List.length body).
    { clear E W. induction body as [|c body IH]; [reflexivity|].
      cbn [forallb] in F. apply andb_true_iff in F. destruct F as [Fc Fb].
      destruct c; try discriminate. cbn. f_equal. apply IH. exact Fb. }
    rewrite <- L, W, length_map.
    generalize (Z.to_nat (w * h)) 0. intros n.
    induction n as [|n IH]; intros a; [reflexivity|]. cbn. f_equal. apply IH.
Qed.

Lemma draw_area_covers_rectangle_witness :
  exists body,
    draw_area init 10 20 2 2 [1; 2; 3; 4]
    = Ok ([Gfx.startWrite; Gfx.setAddrWindow 10 20 2 2] ++ body ++ [Gfx.endWrite])
    /\ Gfx.written body = [(10, 20); (11, 20); (10, 21); (11, 21)].
Proof.
  destruct (draw_area_covers_rectangle init 10 20 2 2 [1; 2; 3; 4])
    as (body & E & _ & W & _).
  - reflexivity.
  - lia.
  - lia.
  - reflexivity.
  - cbn. lia.
  - exists body. split; [exact E|exact W].
Defined.

(** [draw_area] for a rectangle without pixels (width 0 or height 0)
    opens and closes the write window and does nothing else: it reads no
    pixel and, unlike a feed of a streamed update, divides by no width. *)
Theorem draw_area_without_pixels :
  forall d x y w h data,
    _isPaused d = false ->
    w * h = 0 ->
    draw_area d x y w h data
    = Ok [Gfx.startWrite; Gfx.setAddrWindow x y w h; Gfx.endWrite].
Proof.
  intros d x y w h data Hu Hz. unfold draw_area. rewrite Hu, Hz. reflexivity.
Qed.

Lemma draw_area_without_pixels_witness :
  draw_area init 5 6 0 9 []
  = Ok [Gfx.startWrite; Gfx.setAddrWindow 5 6 0 9; Gfx.endWrite].
Proof.
  apply (draw_area_without_pixels init 5 6 0 9 []); reflexivity.
Defined.

(** X4.  A streamed update (begin, feeds, end) on a driver that is not paused
    makes the calls of one [draw_area] on the chunks' buffers put end to
    end, whatever the chunking, and leaves the counter at 0. *)
Theorem streamed_update_equals_draw_area :
  forall d0 x y w h chunks,
    _isPaused d0 = false ->
    0 < w -> w * h < 2 ^ 32 ->
    Forall (fun c => snd c = Z.of_nat (List.length (fst c))) chunks ->
    total chunks = w * h ->
    exists calls,
      draw_area d0 x y w h (List.concat (map fst chunks)) = Ok calls
      /\ run d0 (AreaUpdateStart x y w h :: feeds chunks ++ [AreaUpdateEnd])
         = Ok (mk false x y w h 0, calls).
Proof.
  intros d0 x y w h chunks Hu Hw Hmax Hex Htot.
  destruct (exact_chunks_ok chunks Hex) as [Hok _].
  pose proof (total_nonneg chunks Hok) as Hn.
  destruct (feeds_as_draw_area chunks (mk false x y w h 0) [] [])
    as (body & E & L); cbn [_isPaused _updateW _pixelCount List.length];
    try reflexivity; try assumption; try lia.
  cbn [_updateX _updateY _updateW _pixelCount app Z.add] in E, L.
  rewrite app_nil_r in L.
  exists ([Gfx.startWrite; Gfx.setAddrWindow x y w h] ++ body ++ [Gfx.endWrite]).
  split.
  - unfold draw_area. rewrite Hu.
    rewrite (u32_small (w * h)) by (unfold in_u32; lia).
    rewrite <- Htot, L. reflexivity.
  - cbn [run step]. unfold area_update_start. rewrite Hu. cbn [negb bind fst snd].
    rewrite run_app, E. cbn [bind fst snd run step].
    unfold area_update_end, set_pixelCount. cbn. reflexivity.
Qed.

Lemma streamed_update_equals_draw_area_witness :
  exists calls,
    draw_area init 2 3 2 2 [1; 2; 3; 4] = Ok calls
    /\ run init (AreaUpdateStart 2 3 2 2
                   :: feeds [([1; 2; 3], 3); ([4], 1)] ++ [AreaUpdateEnd])
       = Ok (mk false 2 3 2 2 0, calls).
Proof.
  apply (streamed_update_equals_draw_area init 2 3 2 2 [([1; 2; 3], 3); ([4], 1)]).
  - reflexivity.
  - lia.
  - reflexivity.
  - repeat constructor.
  - reflexivity.
Defined.

Lemma paused_feeds_state chunks : forall d,
  _isPaused d = true -> in_u32 (_pixelCount d) ->
  run d (feeds chunks)
  = Ok (set_pixelCount (u32 (_pixelCount d + total chunks)) d, []).
Proof.
  induction chunks as [|[data n] rest IH]; intros d Hp Hr.
  - cbn [feeds map run total fold_right]. rewrite Z.add_0_r, u32_small by exact Hr.
    destruct d; reflexivity.
  - cbn [feeds map run step fst snd]. unfold area_update_data.
    rewrite Hp. cbn [bind fst snd]. fold (feeds rest).
    rewrite IH; [|exact Hp|apply u32_range].
    cbn [bind fst snd app set_pixelCount _pixelCount].
    cbn [total fold_right snd]. fold (total rest).
    rewrite u32_add_l, Z.add_assoc. reflexivity.
Qed.

(** X5.  Pausing in the middle of a streamed update skips pixels without
    shifting the ones that follow: after chunks fed live, chunks fed while
    paused and a resume, the next chunks are written at the positions they
    would have had without the pause. *)
Theorem pause_mid_stream_keeps_alignment :
  forall d0 x y w h before skipped after,
    _isPaused d0 = false ->
    0 < w ->
    Forall chunk_ok before -> Forall chunk_ok skipped -> Forall chunk_ok after ->
    total before + total skipped + total after < 2 ^ 32 ->
    exists d1 d2 d3 calls1 calls3,
      run (fst (area_update_start d0 x y w h)) (feeds before) = Ok (d1, calls1)
      /\ run (setPaused true d1) (feeds skipped) = Ok (d2, [])
      /\ run (setPaused false d2) (feeds after) = Ok (d3, calls3)
      /\ Gfx.written calls3
         = map (row_major x y w)
             (zseq (total before + total skipped) (Z.to_nat (total after)))
      /\ _pixelCount d3 = total before + total skipped + total after.
Proof.
  intros d0 x y w h before skipped after Hu Hw Hb Hs Ha Hmax.
  pose proof (total_nonneg _ Hb). pose proof (total_nonneg _ Hs).
  pose proof (total_nonneg _ Ha).
  set (d := fst (area_update_start d0 x y w h)).
  assert (Ed : d = mk false x y w h 0).
  { subst d. unfold area_update_start. rewrite Hu. reflexivity. }
  destruct (feeds_ok before d) as (d1 & c1 & E1 & _ & _ & D1);
    [rewrite Ed; reflexivity | rewrite Ed; exact Hw | rewrite Ed; cbn; lia
    | exact Hb | rewrite Ed; cbn; lia |].
  rewrite Ed in D1. cbn in D1.
  pose proof (paused_feeds_state skipped (setPaused true d1)) as E2.
  rewrite D1 in E2. cbn in E2.
  specialize (E2 eq_refl ltac:(unfold in_u32; lia)).
  rewrite u32_small in E2 by (unfold in_u32; lia).
  set (d2 := set_pixelCount (total before + total skipped)
               (mk true x y w h (total before))) in E2.
  destruct (feeds_ok after (setPaused false d2)) as (d3 & c3 & E3 & _ & W3 & D3);
    [reflexivity | exact Hw | subst d2; cbn; lia | exact Ha
    | subst d2; cbn; lia |].
  exists d1, d2, d3, c1, c3.
  split; [exact E1|]. split; [rewrite D1; exact E2|].
  split; [exact E3|]. split.
  - rewrite W3. subst d2. reflexivity.
  - rewrite D3. subst d2. cbn. lia.
Qed.

Lemma pause_mid_stream_keeps_alignment_witness :
  exists d1 d2 d3 calls1 calls3,
    run (fst (area_update_start init 0 0 3 2)) (feeds [([7; 7], 2)])
    = Ok (d1, calls1)
    /\ run (setPaused true d1) (feeds [([8; 8], 2)]) = Ok (d2, [])
    /\ run (setPaused false d2) (feeds [([9; 9], 2)]) = Ok (d3, calls3)
    /\ Gfx.written calls3 = [(1, 1); (2, 1)].
Proof.
  destruct (pause_mid_stream_keeps_alignment init 0 0 3 2
              [([7; 7], 2)] [([8; 8], 2)] [([9; 9], 2)])
    as (d1 & d2 & d3 & c1 & c3 & E1 & E2 & E3 & W & _).
  - reflexivity.
  - lia.
  - repeat constructor; unfold chunk_ok; cbn; lia.
  - repeat constructor; unfold chunk_ok; cbn; lia.
  - repeat constructor; unfold chunk_ok; cbn; lia.
  - reflexivity.
  - exists d1, d2, d3, c1, c3. repeat (split; [assumption|]). exact W.
Defined.

(** ** Copying and the status screen *)

Lemma copy_rows_spec sx sy dx dy w n : forall row,
  copy_rows sx sy dx dy w n row
  = flat_map (fun r => [Gfx.readRect sx (u32 (sy + r)) w 1;
                        Gfx.pushImage dx (u32 (dy + r)) w 1])
      (zseq row n).
Proof.
  induction n as [|n IH]; intros row; [reflexivity|].
  cbn [copy_rows zseq flat_map app]. rewrite IH. reflexivity.
Qed.

(** X6.  [copy_rect] without a scratch buffer copies the rectangle a row at a
    time: for each of the [h] rows, top to bottom, one read of the source
    row followed by one push to the destination row, [2 * h] calls in
    all; with a buffer it is one read and one push of the whole
    rectangle. *)
Theorem copy_rect_fallback_row_by_row :
  forall d allocated sx sy dx dy w h,
    _isPaused d = false ->
    0 <= h ->
    copy_rect d allocated sx sy dx dy w h
    = (if allocated then [Gfx.readRect sx sy w h; Gfx.pushImage dx dy w h]
       else flat_map (fun r => [Gfx.readRect sx (u32 (sy + r)) w 1;
                                Gfx.pushImage dx (u32 (dy + r)) w 1])
              (zseq 0 (Z.to_nat h)))
    /\ (allocated = false ->
          Z.of_nat (List.length (copy_rect d allocated sx sy dx dy w h)) = 2 * h
          /\ forall r, 0 <= r < h ->
               In (Gfx.readRect sx (u32 (sy + r)) w 1)
                  (copy_rect d allocated sx sy dx dy w h)
               /\ In (Gfx.pushImage dx (u32 (dy + r)) w 1)
                    (copy_rect d allocated sx sy dx dy w h)).
Proof.
  intros d allocated sx sy dx dy w h Hu Hh.
  assert (E : copy_rect d false sx sy dx dy w h
              = flat_map (fun r => [Gfx.readRect sx (u32 (sy + r)) w 1;
                                    Gfx.pushImage dx (u32 (dy + r)) w 1])
                  (zseq 0 (Z.to_nat h))).
  { unfold copy_rect. rewrite Hu. apply copy_rows_spec. }
  split.
  - destruct allocated; [unfold copy_rect; rewrite Hu; reflexivity|exact E].
  - intros Ha. subst allocated. rewrite E. split.
    + replace (2 * h) with (2 * Z.of_nat (Z.to_nat h)) by lia.
      generalize (Z.to_nat h) 0. intros n.
      induction n as [|n IH]; intros a; [reflexivity|].
      cbn [zseq flat_map app List.length]. rewrite Nat2Z.inj_succ.
      rewrite Nat2Z.inj_succ, IH. lia.
    + intros r Hr. split; apply in_flat_map; exists r;
        (split; [apply zseq_In; lia | cbn; auto]).
Qed.

Lemma copy_rect_fallback_row_by_row_witness :
  copy_rect init false 0 0 100 50 8 2
  = [Gfx.readRect 0 0 8 1; Gfx.pushImage 100 50 8 1;
     Gfx.readRect 0 1 8 1; Gfx.pushImage 100 51 8 1].
Proof.
  destruct (copy_rect_fallback_row_by_row init false 0 0 100 50 8 2 eq_refl)
    as [E _]; [lia|].
  rewrite E. reflexivity.
Defined.

Lemma centred_value gw s :
  0 <= gw < 2 ^ 15 ->
  12 * strlen s - gw <= 2 ^ 16 ->
  centred gw s
  = if 12 * strlen s <=? gw then (gw - 12 * strlen s) / 2
    else - ((12 * strlen s - gw + 1) / 2).
Proof.
  intros Hw Hl.
  assert (0 <= strlen s) by (unfold strlen; lia).
  unfold centred, i16, u32.
  change (2 ^ 32) with 4294967296. change (2 ^ 16) with 65536 in *.
  change (2 ^ 15) with 32768 in *.
  destruct (Z.leb_spec (12 * strlen s) gw); Z.div_mod_to_equations; lia.
Qed.

(** X7.  [printScreen] on a driver that is not paused clears the screen and
    prints the title 30 px above and the message 10 px below the middle;
    a text of [n] characters starts at [(width - 12 n) / 2] when that is
    positive, and at x = 10 when the text is wider than the screen
    (for texts up to [(width + 65536) / 12] characters). *)
Theorem printScreen_centres_or_falls_back :
  forall gw gh d title msg color,
    _isPaused d = false ->
    0 <= gw < 2 ^ 15 -> 0 <= gh < 2 ^ 16 ->
    12 * strlen title - gw <= 2 ^ 16 ->
    12 * strlen msg - gw <= 2 ^ 16 ->
    let start s :=
      if 2 <=? gw - 12 * strlen s then (gw - 12 * strlen s) / 2 else 10 in
    printScreen gw gh d title msg color
    = [ Gfx.fillScreen Gfx.TFT_BLACK;
        Gfx.setTextColor color;
        Gfx.setTextSize 2;
        Gfx.setCursor (start title) (gh / 2 - 30);
        Gfx.println title;
        Gfx.setCursor (start msg) (gh / 2 + 10);
        Gfx.println msg ].
Proof.
  intros gw gh d title msg color Hu Hw Hh Ht Hm start.
  assert (Hs : forall s, 12 * strlen s - gw <= 2 ^ 16 ->
                 (if 0 <? centred gw s then centred gw s else 10) = start s).
  { intros s Hl. rewrite (centred_value gw s Hw Hl). subst start. cbn beta.
    assert (0 <= strlen s) by (unfold strlen; lia).
    destruct (Z.leb_spec (12 * strlen s) gw);
      destruct (Z.leb_spec 2 (gw - 12 * strlen s)); try lia.
    - destruct (Z.ltb_spec 0 ((gw - 12 * strlen s) / 2)); [reflexivity|].
      Z.div_mod_to_equations; lia.
    - destruct (Z.ltb_spec 0 ((gw - 12 * strlen s) / 2)); [|reflexivity].
      Z.div_mod_to_equations; lia.
    - destruct (Z.ltb_spec 0 (- ((12 * strlen s - gw + 1) / 2))); [|reflexivity].
      Z.div_mod_to_equations; lia. }
  assert (Hc : i16 (Z.quot gh 2) = gh / 2).
  { rewrite Z.quot_div_nonneg by lia. unfold i16.
    change (2 ^ 16) with 65536 in *. change (2 ^ 15) with 32768.
    Z.div_mod_to_equations; lia. }
  unfold printScreen. rewrite Hu. cbn zeta.
  rewrite (Hs title Ht), (Hs msg Hm), Hc. reflexivity.
Qed.

Lemma printScreen_centres_or_falls_back_witness :
  printScreen 1280 720 init "WiFi Failed" "Check credentials" Gfx.TFT_RED
  = [ Gfx.fillScreen Gfx.TFT_BLACK;
      Gfx.setTextColor Gfx.TFT_RED;
      Gfx.setTextSize 2;
      Gfx.setCursor 574 330;
      Gfx.println "WiFi Failed";
      Gfx.setCursor 538 370;
      Gfx.println "Check credentials" ].
Proof.
  rewrite (printScreen_centres_or_falls_back 1280 720 init
             "WiFi Failed" "Check credentials" Gfx.TFT_RED);
    [reflexivity | reflexivity | lia | lia | cbn; lia | cbn; lia].
Defined.

(** ** The key device *)

Lemma byte_cases (P : Z -> bool) :
  forallb P (zseq 0 256) = true -> forall c, 0 <= c < 256 -> P c = true.
Proof.
  intros H c Hc. rewrite forallb_forall in H. apply H, zseq_In. lia.
Qed.

(** X8.  For a byte of the key device, [cardKBToKeysym] is 0 exactly when the
    byte has no case; printable ASCII is its own keysym, and every other
    mapped byte gets a keysym of the X11 function-key page 0xff00..0xffff. *)
Theorem keysym_zero_iff_unmapped :
  forall c,
    0 <= c < 256 ->
    (cardKBToKeysym c = 0 <-> mapped c = false)
    /\ (0x20 <= c <= 0x7E -> cardKBToKeysym c = c)
    /\ (mapped c = true -> ~ 0x20 <= c <= 0x7E ->
          0xff00 <= cardKBToKeysym c <= 0xffff).
Proof.
  intros c Hc.
  pose proof (byte_cases
    (fun c => Bool.eqb (cardKBToKeysym c =? 0) (negb (mapped c))
              && (if (0x20 <=? c) && (c <=? 0x7E) then cardKBToKeysym c =? c
                  else if mapped c
                       then (0xff00 <=? cardKBToKeysym c)
                            && (cardKBToKeysym c <=? 0xffff)
                       else true))
    ltac:(vm_compute; reflexivity) c Hc) as H.
  cbn beta in H. apply andb_true_iff in H. destruct H as [H1 H2].
  apply Bool.eqb_prop in H1. split; [|split].
  - split; intros E.
    + apply Z.eqb_eq in E. rewrite E in H1. destruct (mapped c); [discriminate|reflexivity].
    + rewrite E in H1. apply Z.eqb_eq. exact H1.
  - intros Hr.
    destruct (Z.leb_spec 0x20 c); [|lia]. destruct (Z.leb_spec c 0x7E); [|lia].
    cbn [andb] in H2. apply Z.eqb_eq. exact H2.
  - intros Hm Hr. rewrite Hm in H2.
    destruct (Z.leb_spec 0x20 c); destruct (Z.leb_spec c 0x7E); cbn [andb] in H2;
      try lia; apply andb_true_iff in H2; destruct H2 as [A B];
      apply Z.leb_le in A; apply Z.leb_le in B; lia.
Qed.

Lemma keysym_zero_iff_unmapped_witness :
  cardKBToKeysym 0x61 = 0x61 /\ cardKBToKeysym 0x80 = 0.
Proof.
  split.
  - apply (keysym_zero_iff_unmapped 0x61); lia.
  - apply (keysym_zero_iff_unmapped 0x80); [lia|reflexivity].
Defined.

(** X9.  Two different mapped bytes get different keysyms, but for line feed
    and carriage return, which both are Return. *)
Theorem keysym_injective_up_to_return :
  forall c1 c2,
    0 <= c1 < 256 -> 0 <= c2 < 256 ->
    mapped c1 = true ->
    cardKBToKeysym c1 = cardKBToKeysym c2 ->
    c1 = c2 \/ (c1 = 0x0A /\ c2 = 0x0D) \/ (c1 = 0x0D /\ c2 = 0x0A).
Proof.
  intros c1 c2 H1 H2 Hm E.
  pose proof (byte_cases
    (fun a => forallb
       (fun b => implb (mapped a && (cardKBToKeysym a =? cardKBToKeysym b))
                   ((a =? b) || ((a =? 0x0A) && (b =? 0x0D))
                    || ((a =? 0x0D) && (b =? 0x0A))))
       (zseq 0 256))
    ltac:(vm_compute; reflexivity) c1 H1) as H.
  cbn beta in H.
  pose proof (byte_cases _ H c2 H2) as H'. cbn beta in H'.
  rewrite Hm, E, Z.eqb_refl in H'. cbn [andb implb] in H'.
  apply orb_true_iff in H'. destruct H' as [H'|H'].
  - apply orb_true_iff in H'. destruct H' as [H'|H'].
    + left. apply Z.eqb_eq. exact H'.
    + apply andb_true_iff in H'. destruct H' as [A B].
      right. left. split; apply Z.eqb_eq; assumption.
  - apply andb_true_iff in H'. destruct H' as [A B].
    right. right. split; apply Z.eqb_eq; assumption.
Qed.

Lemma keysym_injective_up_to_return_witness :
  0x0A = 0x0D \/ (0x0A = 0x0A /\ 0x0D = 0x0D) \/ (0x0A = 0x0D /\ 0x0D = 0x0A).
Proof.
  apply (keysym_injective_up_to_return 0x0A 0x0D); try reflexivity; lia.
Defined.

(** ** What [loop] sends *)

Section GestureEvents.

(** A kind of event the gesture checks never send: anything but pointer
    events, calls to the surface, delays and requests for a full redraw. *)
Variable kind : event -> bool.
Hypothesis kind_mouse : forall x y m, kind (mouseEvent x y m) = false.
Hypothesis kind_display : forall c, kind (display c) = false.
Hypothesis kind_delay : forall ms, kind (delay ms) = false.
Hypothesis kind_redraw : kind forceFullUpdate = false.

Lemma filter_kind_display cs : filter kind (map display cs) = [].
Proof.
  induction cs as [|c cs IH]; [reflexivity|].
  cbn [map filter]. rewrite kind_display. exact IH.
Qed.

Lemma filter_kind_displayStatus cfg title msg color s :
  filter kind (displayStatus cfg title msg color s) = [].
Proof.
  unfold displayStatus. destruct (vncDisplay s); [|reflexivity].
  apply filter_kind_display.
Qed.

Lemma filter_kind_release_held s : filter kind (snd (release_held s)) = [].
Proof.
  unfold release_held. destruct (vncPresent s && wasTouched s); cbn;
    rewrite ?kind_mouse; reflexivity.
Qed.

Lemma filter_kind_showInfoScreen cfg s :
  filter kind (snd (showInfoScreen cfg s)) = [].
Proof.
  unfold showInfoScreen.
  pose proof (filter_kind_release_held s) as Hr.
  destruct (release_held s) as [s1 released]. cbn [fst snd] in *.
  rewrite !filter_app, Hr, filter_kind_display. cbn. rewrite kind_delay.
  reflexivity.
Qed.

Lemma filter_kind_checkMultiTouch tk s :
  filter kind (snd (checkMultiTouch tk s)) = [].
Proof.
  unfold checkMultiTouch.
  destruct (3 <=? count (sample tk)); [|reflexivity].
  destruct (THREE_TOUCH_DEBOUNCE <? elapsed (now tk) (lastThreeTouchTime s));
    [|reflexivity].
  destruct (showingInfoScreen (set_lastThreeTouchTime (now tk) s)).
  - unfold showVNCScreen, resumeVNCScreen.
    match goal with |- context [vncDisplay ?s0] => destruct (vncDisplay s0) end;
      [match goal with |- context [if ?b then _ else _] => destruct b end|];
      cbn; rewrite ?kind_display, ?kind_delay, ?kind_redraw; reflexivity.
  - match goal with |- context [if ?b then _ else _] => destruct b end;
      cbn; rewrite ?kind_redraw; reflexivity.
Qed.

Lemma filter_kind_checkSwipeGesture cfg tk s :
  filter kind (snd (checkSwipeGesture cfg tk s)) = [].
Proof.
  unfold checkSwipeGesture.
  destruct (negb (count (sample tk) =? 1)); [reflexivity|].
  destruct (isPressed (sample tk)); [|reflexivity].
  destruct (negb (swipeInProgress s)).
  - destruct (y (sample tk) <=? SWIPE_TOP_THRESHOLD); [|reflexivity].
    apply filter_kind_release_held.
  - match goal with |- context [if ?b then _ else _] => destruct b end.
    + pose proof (filter_kind_showInfoScreen cfg (set_screenJustSwitched true s)) as H.
      destruct (showInfoScreen cfg (set_screenJustSwitched true s)) as [s1 evs].
      exact H.
    + branch; reflexivity.
Qed.

Lemma filter_kind_loop cfg tk1 tk2 pressed c s :
  filter kind (snd (loop cfg tk1 tk2 pressed c s))
  = filter kind
      (loop_buttons cfg pressed (connected tk2) (fst (loop cfg tk1 tk2 pressed c s))
       ++ loop_cardkb c (fst (loop cfg tk1 tk2 pressed c s))).
Proof.
  unfold loop.
  pose proof (filter_kind_checkMultiTouch tk1 s) as H1.
  destruct (checkMultiTouch tk1 s) as [s1 e1].
  pose proof (filter_kind_checkSwipeGesture cfg tk2 s1) as H2.
  destruct (checkSwipeGesture cfg tk2 s1) as [s2 e2].
  cbn [fst snd] in *.
  rewrite !filter_app, H1, H2. cbn [app filter]. rewrite kind_delay.
  rewrite app_nil_r. reflexivity.
Qed.

End GestureEvents.

Lemma loop_static cfg tk1 tk2 pressed c s :
  vncPresent (fst (loop cfg tk1 tk2 pressed c s)) = vncPresent s
  /\ cardkb_available (fst (loop cfg tk1 tk2 pressed c s)) = cardkb_available s.
Proof.
  rewrite loop_state.
  destruct (checkSwipeGesture_static cfg tk2 (fst (checkMultiTouch tk1 s))) as [A B].
  destruct (checkMultiTouch_static tk1 s) as [C D].
  rewrite A, B, C, D. auto.
Qed.

(** X10.  The key events of one iteration of [loop]: none when the key device
    is absent or idle (byte 0) or there is no client; otherwise the press
    of the byte's keysym followed by its release, and nothing else. *)
Theorem loop_sends_press_then_release :
  forall cfg tk1 tk2 pressed c s,
    filter is_keyEvent (snd (loop cfg tk1 tk2 pressed c s))
    = if cardkb_available s && negb (c =? 0) && vncPresent s
      then [keyEvent (cardKBToKeysym c) 1; keyEvent (cardKBToKeysym c) 0]
      else [].
Proof.
  intros cfg tk1 tk2 pressed c s.
  rewrite (filter_kind_loop is_keyEvent) by reflexivity.
  destruct (loop_static cfg tk1 tk2 pressed c s) as [Hv Hk].
  rewrite filter_app.
  assert (Hb : filter is_keyEvent
                 (loop_buttons cfg pressed (connected tk2)
                    (fst (loop cfg tk1 tk2 pressed c s))) = []).
  { unfold loop_buttons. branch; try reflexivity.
    rewrite filter_app, (filter_kind_displayStatus is_keyEvent) by reflexivity.
    reflexivity. }
  rewrite Hb. unfold loop_cardkb. rewrite Hv, Hk.
  destruct (cardkb_available s); destruct (negb (c =? 0));
    destruct (vncPresent s); reflexivity.
Qed.

(** X11.  [loop] asks the client to reconnect at most once per iteration, and
    only when a button was pressed while the client exists and is not
    connected. *)
Theorem loop_reconnects_only_when_disconnected :
  forall cfg tk1 tk2 pressed c s,
    filter is_reconnect (snd (loop cfg tk1 tk2 pressed c s))
    = if pressed && vncPresent s && negb (connected tk2)
      then [reconnect] else [].
Proof.
  intros cfg tk1 tk2 pressed c s.
  rewrite (filter_kind_loop is_reconnect) by reflexivity.
  destruct (loop_static cfg tk1 tk2 pressed c s) as [Hv Hk].
  rewrite filter_app.
  assert (Hc : filter is_reconnect
                 (loop_cardkb c (fst (loop cfg tk1 tk2 pressed c s))) = []).
  { unfold loop_cardkb. branch; reflexivity. }
  rewrite Hc, app_nil_r. unfold loop_buttons. rewrite Hv.
  destruct pressed; [|reflexivity].
  destruct (vncPresent s); [|reflexivity].
  destruct (connected tk2); [reflexivity|].
  cbn [andb negb]. rewrite filter_app.
  rewrite (filter_kind_displayStatus is_reconnect) by reflexivity.
  reflexivity.
Qed.

(** ** Pointer events *)

Ltac decide_tests :=
  repeat match goal with
         | H : ?b = true |- context [?b] => rewrite H
         | H : ?b = false |- context [?b] => rewrite H
         end.

(** X12.  A touch that has not changed is not reported twice: when
    [handleTouch] sees again, at any later time, the sample it has just
    handled (one pointer, or none, or three and more), it sends nothing
    and changes nothing.  The tick that clears the transition guard is
    left out. *)
Theorem handleTouch_unchanged_sample_is_silent :
  forall tk tk' s,
    screenJustSwitched s = false ->
    sample tk' = sample tk ->
    count (sample tk) <> 2 ->
    handleTouch tk' (fst (handleTouch tk s)) = (fst (handleTouch tk s), []).
Proof.
  intros tk tk' s Hg Hs Hc.
  apply Z.eqb_neq in Hc.
  destruct (handleTouch tk s) as [s1 e1] eqn:E. cbn [fst].
  unfold handleTouch in E. rewrite Hg, Hc in E.
  repeat match type of E with
         | context [if ?b then _ else _] => destruct b eqn:?
         end;
    inversion E; subst; clear E;
    unfold handleTouch; rewrite Hs; cbn in *;
    repeat (progress (decide_tests; rewrite ?Z.eqb_refl; cbn));
    reflexivity.
Qed.

Lemma handleTouch_unchanged_sample_is_silent_witness :
  let press := mkTouch 1 300 200 true in
  handleTouch (mkTick press 2500 true)
    (fst (handleTouch (mkTick press 2000 true) (after_setup false)))
  = (fst (handleTouch (mkTick press 2000 true) (after_setup false)), []).
Proof.
  apply (handleTouch_unchanged_sample_is_silent
           (mkTick (mkTouch 1 300 200 true) 2000 true)
           (mkTick (mkTouch 1 300 200 true) 2500 true)
           (after_setup false)).
  - reflexivity.
  - reflexivity.
  - cbn. lia.
Defined.

(** X13.  A release carries the position of the last press or move: after
    [handleTouch] has reported a pointer at [(x, y)], the next run that
    finds no pressed single pointer (and no two-finger touch) sends one
    release at [(x, y)]. *)
Theorem release_is_sent_at_last_position :
  forall tk tk' s,
    vncPresent s = true -> swipeInProgress s = false ->
    screenJustSwitched s = false ->
    count (sample tk) = 1 -> isPressed (sample tk) = true ->
    count (sample tk') <> 2 ->
    (count (sample tk') =? 1) && isPressed (sample tk') = false ->
    wasTouched (fst (handleTouch tk s)) = true
    /\ snd (handleTouch tk' (fst (handleTouch tk s)))
       = [mouseEvent (x (sample tk)) (y (sample tk)) 0]
    /\ wasTouched (fst (handleTouch tk' (fst (handleTouch tk s)))) = false.
Proof.
  intros tk tk' s Hv Hsw Hg Hc Hp Hc' Hr.
  apply Z.eqb_neq in Hc'.
  destruct (handleTouch tk s) as [s1 e1] eqn:E. cbn [fst].
  unfold handleTouch in E. rewrite Hv, Hsw, Hg, Hc, Hp in E. cbn in E.
  repeat match type of E with
         | context [if ?b then _ else _] => destruct b eqn:?
         end;
    inversion E; subst; clear E;
    unfold handleTouch; cbn in *;
    repeat (progress (decide_tests; cbn)).
  all: repeat match goal with
         | H : _ || _ = false |- _ =>
             apply orb_false_iff in H; destruct H
         | H : negb _ = false |- _ => apply negb_false_iff in H
         | H : (_ =? _) = true |- _ => apply Z.eqb_eq in H
         end.
  all: decide_tests; cbn.
  all: repeat match goal with
         | H : _ = lastTouchX _ |- _ => rewrite <- H; clear H
         | H : _ = lastTouchY _ |- _ => rewrite <- H; clear H
         end.
  all: auto.
Qed.

Lemma release_is_sent_at_last_position_witness :
  snd (handleTouch (mkTick (mkTouch 0 0 0 false) 2100 true)
         (fst (handleTouch (mkTick (mkTouch 1 300 200 true) 2000 true)
                 (after_setup false))))
  = [mouseEvent 300 200 0].
Proof.
  apply (release_is_sent_at_last_position
           (mkTick (mkTouch 1 300 200 true) 2000 true)
           (mkTick (mkTouch 0 0 0 false) 2100 true)
           (after_setup false));
    try reflexivity.
  cbn. lia.
Defined.

(** ** Invariants of the gesture state *)

Ltac bool_facts :=
  repeat match goal with
         | H : _ && _ = true |- _ => apply andb_true_iff in H; destruct H
         | H : negb _ = true |- _ => apply negb_true_iff in H
         | H : negb _ = false |- _ => apply negb_false_iff in H
         end.

Lemma button_after_app b evs1 evs2 :
  button_after b (evs1 ++ evs2) = button_after (button_after b evs1) evs2.
Proof.
  revert b. induction evs1 as [|e evs1 IH]; intros b; [reflexivity|].
  destruct e; cbn; apply IH.
Qed.

Lemma button_after_display b cs : button_after b (map display cs) = b.
Proof. induction cs as [|c cs IH]; [reflexivity|exact IH]. Qed.

Lemma handleTouch_button tk s :
  no_button_in_gesture s ->
  no_button_in_gesture (fst (handleTouch tk s))
  /\ button_after (wasTouched s) (snd (handleTouch tk s))
     = wasTouched (fst (handleTouch tk s)).
Proof.
  unfold no_button_in_gesture. intros [I1 I2].
  unfold handleTouch. branch; cbn in *; bool_facts;
    repeat split; intros; cbn in *; try congruence; auto;
    symmetry; auto.
Qed.

Lemma release_held_button s :
  no_button_in_gesture s ->
  no_button_in_gesture (fst (release_held s))
  /\ button_after (wasTouched s) (snd (release_held s))
     = wasTouched (fst (release_held s)).
Proof.
  unfold no_button_in_gesture. intros [I1 I2].
  unfold release_held. branch; cbn in *; bool_facts;
    repeat split; intros; cbn in *; try congruence; auto.
Qed.

Lemma showInfoScreen_button cfg s :
  no_button_in_gesture s ->
  no_button_in_gesture (fst (showInfoScreen cfg s))
  /\ button_after (wasTouched s) (snd (showInfoScreen cfg s))
     = wasTouched (fst (showInfoScreen cfg s)).
Proof.
  intros I. destruct (release_held_button s I) as [[J1 J2] B].
  unfold showInfoScreen.
  destruct (release_held s) as [s1 released]. cbn [fst snd] in *.
  rewrite !button_after_app, B, button_after_display.
  unfold no_button_in_gesture, pauseVNCScreen.
  branch; cbn in *; repeat split; intros; try congruence; auto.
Qed.

Lemma checkMultiTouch_button tk s :
  no_button_in_gesture s ->
  no_button_in_gesture (fst (checkMultiTouch tk s))
  /\ button_after (wasTouched s) (snd (checkMultiTouch tk s))
     = wasTouched (fst (checkMultiTouch tk s)).
Proof.
  unfold no_button_in_gesture. intros [I1 I2].
  unfold checkMultiTouch, showVNCScreen, resumeVNCScreen.
  branch; cbn in *; branch; cbn in *;
    repeat split; intros; try congruence; auto.
Qed.

Lemma checkSwipeGesture_button cfg tk s :
  no_button_in_gesture s ->
  no_button_in_gesture (fst (checkSwipeGesture cfg tk s))
  /\ button_after (wasTouched s) (snd (checkSwipeGesture cfg tk s))
     = wasTouched (fst (checkSwipeGesture cfg tk s)).
Proof.
  intros I. pose proof I as [I1 I2].
  assert (Hoff : no_button_in_gesture (set_swipeInProgress false s)
                 /\ button_after (wasTouched s) []
                    = wasTouched (set_swipeInProgress false s)).
  { unfold no_button_in_gesture. cbn. repeat split; auto. congruence. }
  unfold checkSwipeGesture.
  destruct (negb (count (sample tk) =? 1)); [exact Hoff|].
  destruct (isPressed (sample tk)); [|exact Hoff].
  destruct (negb (swipeInProgress s)).
  - destruct (y (sample tk) <=? SWIPE_TOP_THRESHOLD); [|split; [exact I|reflexivity]].
    unfold release_held, no_button_in_gesture.
    branch; cbn in *; bool_facts; repeat split; intros; try congruence; auto.
    match goal with
    | H1 : ?a && ?b = false, H2 : ?a = true |- ?b = false =>
        rewrite H2 in H1; exact H1
    end.
  - match goal with |- context [if ?b then _ else _] => destruct b end.
    + assert (I' : no_button_in_gesture (set_screenJustSwitched true s))
        by exact I.
      destruct (showInfoScreen_button cfg _ I') as [[J1 J2] B].
      destruct (showInfoScreen cfg (set_screenJustSwitched true s)) as [s1 evs].
      cbn [fst snd] in *. split; [|exact B].
      unfold no_button_in_gesture. cbn. split; [exact J1|]. congruence.
    + branch; [exact Hoff|split; [exact I|reflexivity]].
Qed.

Lemma loop_button cfg tk1 tk2 pressed c s :
  no_button_in_gesture s ->
  no_button_in_gesture (fst (loop cfg tk1 tk2 pressed c s))
  /\ button_after (wasTouched s) (snd (loop cfg tk1 tk2 pressed c s))
     = wasTouched (fst (loop cfg tk1 tk2 pressed c s)).
Proof.
  intros I. unfold loop.
  destruct (checkMultiTouch_button tk1 s I) as [I1 B1].
  destruct (checkMultiTouch tk1 s) as [s1 e1]. cbn [fst snd] in *.
  destruct (checkSwipeGesture_button cfg tk2 s1 I1) as [I2 B2].
  destruct (checkSwipeGesture cfg tk2 s1) as [s2 e2]. cbn [fst snd] in *.
  split; [exact I2|].
  rewrite !button_after_app, B1, B2.
  assert (H3 : forall b, button_after b (loop_buttons cfg pressed (connected tk2) s2) = b).
  { intros b. unfold loop_buttons, displayStatus.
    branch; try reflexivity; rewrite button_after_app, button_after_display;
      reflexivity. }
  assert (H4 : forall b, button_after b (loop_cardkb c s2) = b).
  { intros b. unfold loop_cardkb. branch; reflexivity. }
  rewrite H3, H4. reflexivity.
Qed.

Lemma schedule_button cfg acts : forall s,
  no_button_in_gesture s ->
  no_button_in_gesture (fst (schedule cfg acts s))
  /\ button_after (wasTouched s) (snd (schedule cfg acts s))
     = wasTouched (fst (schedule cfg acts s)).
Proof.
  induction acts as [|a acts IH]; intros s I; [split; [exact I|reflexivity]|].
  destruct a as [tk1 tk2 pressed c|tk]; cbn [schedule].
  - destruct (loop_button cfg tk1 tk2 pressed c s I) as [I1 B1].
    destruct (loop cfg tk1 tk2 pressed c s) as [s1 e1]. cbn [fst snd] in *.
    destruct (IH s1 I1) as [I2 B2].
    destruct (schedule cfg acts s1) as [s2 e2]. cbn [fst snd] in *.
    split; [exact I2|]. rewrite button_after_app, B1. exact B2.
  - destruct (handleTouch_button tk s I) as [I1 B1].
    destruct (handleTouch tk s) as [s1 e1]. cbn [fst snd] in *.
    destruct (IH s1 I1) as [I2 B2].
    destruct (schedule cfg acts s1) as [s2 e2]. cbn [fst snd] in *.
    split; [exact I2|]. rewrite button_after_app, B1. exact B2.
Qed.

(** X14.  In every schedule of [loop] iterations and [handleTouch] runs, no
    button is held while a two-finger scroll or a swipe is going on: a
    drag is released before either gesture starts and cannot start during
    it. *)
Theorem no_button_held_during_gestures :
  forall cfg acts s,
    no_button_in_gesture s ->
    no_button_in_gesture (fst (schedule cfg acts s)).
Proof.
  intros cfg acts s I. apply schedule_button. exact I.
Qed.

(** X15.  The flag [wasTouched] tracks the left button as the session sees it:
    after every schedule it tells whether the last pointer event sent had
    the left button held (or, when none was sent, what it told before). *)
Theorem wasTouched_tracks_button_sent :
  forall cfg acts s,
    no_button_in_gesture s ->
    wasTouched (fst (schedule cfg acts s))
    = button_after (wasTouched s) (snd (schedule cfg acts s)).
Proof.
  intros cfg acts s I. symmetry. apply schedule_button. exact I.
Qed.

Lemma no_button_held_during_gestures_witness :
  no_button_in_gesture
    (fst (schedule (mkConfig "ssid" "192.168.1.100" "5900" 1280 720)
            [RunHandleTouch (mkTick (mkTouch 1 300 200 true) 2000 true);
             RunHandleTouch (mkTick (mkTouch 2 300 200 true) 2050 true)]
            (after_setup false))).
Proof.
  apply no_button_held_during_gestures.
  split; intros; reflexivity.
Defined.

Lemma wasTouched_tracks_button_sent_witness :
  let r :=
    schedule (mkConfig "ssid" "192.168.1.100" "5900" 1280 720)
      [RunHandleTouch (mkTick (mkTouch 1 300 200 true) 2000 true);
       RunLoop (mkTick (mkTouch 1 300 20 true) 2040 true)
         (mkTick (mkTouch 1 300 20 true) 2041 true) false 0]
      (after_setup false) in
  wasTouched (fst r) = button_after false (snd r).
Proof.
  apply (wasTouched_tracks_button_sent
           (mkConfig "ssid" "192.168.1.100" "5900" 1280 720)
           [RunHandleTouch (mkTick (mkTouch 1 300 200 true) 2000 true);
            RunLoop (mkTick (mkTouch 1 300 20 true) 2040 true)
              (mkTick (mkTouch 1 300 20 true) 2041 true) false 0]
           (after_setup false)).
  split; intros; reflexivity.
Defined.

(** ** Screen mode *)

(** X16.  Two three-finger touches within the debounce window act once: after
    [checkMultiTouch] has acted at [now], a run at most 500 ms later does
    nothing, whatever the touch. *)
Theorem three_finger_debounced :
  forall tk1 tk2 s,
    3 <= count (sample tk1) ->
    THREE_TOUCH_DEBOUNCE < elapsed (now tk1) (lastThreeTouchTime s) ->
    elapsed (now tk2) (now tk1) <= THREE_TOUCH_DEBOUNCE ->
    lastThreeTouchTime (fst (checkMultiTouch tk1 s)) = now tk1
    /\ checkMultiTouch tk2 (fst (checkMultiTouch tk1 s))
       = (fst (checkMultiTouch tk1 s), []).
Proof.
  intros tk1 tk2 s Hc Hd Hw.
  assert (Hl : lastThreeTouchTime (fst (checkMultiTouch tk1 s)) = now tk1).
  { apply Z.leb_le in Hc. apply Z.ltb_lt in Hd.
    unfold checkMultiTouch, showVNCScreen, resumeVNCScreen. rewrite Hc, Hd.
    branch; cbn; branch; reflexivity. }
  split; [exact Hl|].
  unfold checkMultiTouch at 1. rewrite Hl.
  destruct (3 <=? count (sample tk2)); [|reflexivity].
  destruct (Z.ltb_spec THREE_TOUCH_DEBOUNCE (elapsed (now tk2) (now tk1)));
    [lia|reflexivity].
Qed.

Lemma three_finger_debounced_witness :
  let first := mkTick (mkTouch 3 640 360 true) 1000 true in
  let second := mkTick (mkTouch 3 640 360 true) 1400 true in
  checkMultiTouch second (fst (checkMultiTouch first (after_setup false)))
  = (fst (checkMultiTouch first (after_setup false)), []).
Proof.
  apply (three_finger_debounced
           (mkTick (mkTouch 3 640 360 true) 1000 true)
           (mkTick (mkTouch 3 640 360 true) 1400 true)
           (after_setup false)).
  - cbn. lia.
  - vm_compute. reflexivity.
  - vm_compute. discriminate.
Defined.

Lemma handleTouch_mode tk s :
  vncDisplay (fst (handleTouch tk s)) = vncDisplay s
  /\ showingInfoScreen (fst (handleTouch tk s)) = showingInfoScreen s
  /\ vncScreenPaused (fst (handleTouch tk s)) = vncScreenPaused s.
Proof.
  unfold handleTouch. branch; cbn; repeat split; reflexivity.
Qed.

Lemma release_held_mode s :
  vncDisplay (fst (release_held s)) = vncDisplay s
  /\ showingInfoScreen (fst (release_held s)) = showingInfoScreen s
  /\ vncScreenPaused (fst (release_held s)) = vncScreenPaused s.
Proof.
  unfold release_held. branch; cbn; repeat split; reflexivity.
Qed.

Lemma showInfoScreen_mode cfg s :
  mode_consistent s -> mode_consistent (fst (showInfoScreen cfg s)).
Proof.
  intros I. unfold showInfoScreen.
  destruct (release_held_mode s) as (A & B & C).
  destruct (release_held s) as [s1 released]. cbn [fst snd] in *.
  unfold mode_consistent in *. rewrite <- A, <- C in I. clear A B C.
  unfold pauseVNCScreen.
  destruct (twoFingerScrollActive s1); cbn;
    destruct (vncDisplay s1) as [d|] eqn:Hd; cbn;
    try (split; reflexivity); rewrite Hd; exact I.
Qed.

Lemma showVNCScreen_mode conn s :
  mode_consistent s -> mode_consistent (fst (showVNCScreen conn s)).
Proof.
  unfold mode_consistent, showVNCScreen, resumeVNCScreen.
  intros I. cbn. destruct (vncDisplay s) as [d|] eqn:Hd; cbn.
  - destruct (vncPresent s && conn); cbn; split; reflexivity.
  - rewrite Hd. exact I.
Qed.

Lemma checkMultiTouch_mode tk s :
  mode_consistent s -> mode_consistent (fst (checkMultiTouch tk s)).
Proof.
  intros I. unfold checkMultiTouch.
  destruct (3 <=? count (sample tk)); [|exact I].
  destruct (THREE_TOUCH_DEBOUNCE <? elapsed (now tk) (lastThreeTouchTime s));
    [|exact I].
  destruct (showingInfoScreen (set_lastThreeTouchTime (now tk) s)).
  - apply showVNCScreen_mode. exact I.
  - match goal with |- context [if ?b then _ else _] => destruct b end; exact I.
Qed.

Lemma checkSwipeGesture_mode cfg tk s :
  mode_consistent s -> mode_consistent (fst (checkSwipeGesture cfg tk s)).
Proof.
  intros I. unfold checkSwipeGesture.
  destruct (negb (count (sample tk) =? 1)); [exact I|].
  destruct (isPressed (sample tk)); [|exact I].
  destruct (negb (swipeInProgress s)).
  - destruct (y (sample tk) <=? SWIPE_TOP_THRESHOLD); [|exact I].
    unfold release_held. branch; exact I.
  - match goal with |- context [if ?b then _ else _] => destruct b end.
    + assert (I' : mode_consistent (set_screenJustSwitched true s)) by exact I.
      pose proof (showInfoScreen_mode cfg _ I') as J.
      destruct (showInfoScreen cfg (set_screenJustSwitched true s)) as [s1 evs].
      exact J.
    + branch; exact I.
Qed.

(** X17.  In every schedule the three records of the screen mode agree: the
    driver is paused exactly while the info screen is shown, and
    [vncScreenPaused] says the same; so the driver draws nothing while
    the info screen is up and is never left paused on the live view. *)
Theorem screen_mode_flags_agree :
  forall cfg acts s,
    mode_consistent s ->
    mode_consistent (fst (schedule cfg acts s))
    /\ forall d,
         vncDisplay (fst (schedule cfg acts s)) = Some d ->
         _isPaused d = showingInfoScreen (fst (schedule cfg acts s))
         /\ vncScreenPaused (fst (schedule cfg acts s))
            = showingInfoScreen (fst (schedule cfg acts s)).
Proof.
  intros cfg acts s I.
  assert (J : mode_consistent (fst (schedule cfg acts s))).
  { revert s I. induction acts as [|a acts IH]; intros s I; [exact I|].
    destruct a as [tk1 tk2 pressed c|tk]; cbn [schedule].
    - pose proof (loop_state cfg tk1 tk2 pressed c s) as E.
      destruct (loop cfg tk1 tk2 pressed c s) as [s1 e1]. cbn [fst] in E.
      specialize (IH s1).
      destruct (schedule cfg acts s1) as [s2 e2]. cbn [fst] in *.
      apply IH. rewrite E.
      apply checkSwipeGesture_mode, checkMultiTouch_mode, I.
    - destruct (handleTouch_mode tk s) as (A & B & C).
      destruct (handleTouch tk s) as [s1 e1]. cbn [fst] in *.
      specialize (IH s1).
      destruct (schedule cfg acts s1) as [s2 e2]. cbn [fst] in *.
      apply IH. unfold mode_consistent in *. rewrite A, B, C. exact I. }
  split; [exact J|].
  intros d Hd. unfold mode_consistent in J. rewrite Hd in J. exact J.
Qed.

Lemma screen_mode_flags_agree_witness :
  mode_consistent
    (fst (schedule (mkConfig "ssid" "192.168.1.100" "5900" 1280 720)
            [RunLoop (mkTick (mkTouch 1 300 20 true) 2000 true)
               (mkTick (mkTouch 1 300 20 true) 2001 true) false 0;
             RunLoop (mkTick (mkTouch 1 310 200 true) 2300 true)
               (mkTick (mkTouch 1 310 200 true) 2301 true) false 0]
            (after_setup false))).
Proof.
  assert (I : mode_consistent (after_setup false))
    by (unfold mode_consistent; cbn; split; reflexivity).
  exact (proj1 (screen_mode_flags_agree _ _ _ I)).
Defined.

(** X18.  Opening the info screen and coming back restores the driver as it
    was, streaming context and counter included, and clears both mode
    flags. *)
Theorem info_screen_round_trip :
  forall cfg conn s d,
    vncDisplay s = Some d ->
    _isPaused d = false ->
    let shown := fst (showInfoScreen cfg s) in
    let back := fst (showVNCScreen conn shown) in
    vncDisplay shown = Some (setPaused true d)
    /\ showingInfoScreen shown = true
    /\ vncDisplay back = Some d
    /\ showingInfoScreen back = false
    /\ vncScreenPaused back = false.
Proof.
  intros cfg conn s d Hd Hu shown back.
  destruct (showInfoScreen_opens cfg s) as (Ho & Hp & _).
  specialize (Hp d Hd). fold shown in Ho, Hp.
  subst back. unfold showVNCScreen, resumeVNCScreen. cbn. rewrite Hp.
  split; [reflexivity|]. split; [exact Ho|].
  destruct (vncPresent shown && conn); cbn; repeat split;
    destruct d; cbn in *; subst; reflexivity.
Qed.

Lemma info_screen_round_trip_witness :
  vncDisplay
    (fst (showVNCScreen true
            (fst (showInfoScreen (mkConfig "ssid" "192.168.1.100" "5900" 1280 720)
                    (after_setup false)))))
  = Some init.
Proof.
  apply (info_screen_round_trip
           (mkConfig "ssid" "192.168.1.100" "5900" 1280 720) true
           (after_setup false) init); reflexivity.
Defined.

(** ** Faults *)

Lemma draw_area_loop_no_division x y w pixels n : forall i,
  w <> 0 -> draw_area_loop x y w pixels n i <> Fault DivisionByZero.
Proof.
  induction n as [|n IH]; intros i Hw; [discriminate|].
  cbn [draw_area_loop]. rewrite umod_ok, udiv_ok by exact Hw.
  unfold read16. destruct (nth_error pixels (Z.to_nat i)); [|discriminate].
  cbn [bind]. specialize (IH (i + 1) Hw).
  destruct (draw_area_loop x y w pixels n (i + 1)) as [rest|f];
    cbn [bind]; [discriminate|exact IH].
Qed.

(** X3.  [draw_area] never divides by zero, whatever the rectangle: with
    width 0 its pixel count is 0 and its loop does not run. *)
Theorem draw_area_never_divides_by_zero :
  forall d x y w h data,
    draw_area d x y w h data <> Fault DivisionByZero.
Proof.
  intros d x y w h data. unfold draw_area.
  destruct (_isPaused d); [discriminate|].
  destruct (Z.eq_dec w 0) as [Hw|Hw].
  - subst w. cbn. discriminate.
  - pose proof (draw_area_loop_no_division x y w data (Z.to_nat (u32 (w * h))) 0 Hw).
    destruct (draw_area_loop x y w data (Z.to_nat (u32 (w * h))) 0);
      cbn [bind]; [discriminate|assumption].
Qed.

Lemma draw_area_never_divides_by_zero_witness :
  draw_area init 3 4 0 5 [] <> Fault DivisionByZero.
Proof.
  exact (draw_area_never_divides_by_zero init 3 4 0 5 []).
Defined.

Lemma area_update_loop_no_division d pixels n : forall i,
  _updateW d <> 0 -> area_update_loop d pixels n i <> Fault DivisionByZero.
Proof.
  induction n as [|n IH]; intros i Hw; [discriminate|].
  cbn [area_update_loop]. rewrite umod_ok, udiv_ok by exact Hw.
  unfold read16. destruct (nth_error pixels (Z.to_nat i)); [|discriminate].
  cbn [bind]. specialize (IH (i + 1) Hw).
  destruct (area_update_loop d pixels n (i + 1)) as [rest|f];
    cbn [bind]; [discriminate|exact IH].
Qed.

(** X20.  A feed of a streamed update divides by zero exactly when the driver
    is not paused, the update was begun with width 0 and the feed
    announces at least one pixel. *)
Theorem feed_divides_by_zero_iff :
  forall d data pixel,
    area_update_data d data pixel = Fault DivisionByZero
    <-> _isPaused d = false /\ _updateW d = 0 /\ 0 < pixel.
Proof.
  intros d data pixel. unfold area_update_data. split.
  - destruct (_isPaused d); [discriminate|]. intros H.
    destruct (Z.eq_dec (_updateW d) 0) as [Hw|Hw].
    + split; [reflexivity|]. split; [exact Hw|].
      destruct (Z.to_nat pixel) as [|n] eqn:En; [discriminate|lia].
    + pose proof (area_update_loop_no_division d data (Z.to_nat pixel) 0 Hw) as N.
      destruct (area_update_loop d data (Z.to_nat pixel) 0); cbn [bind] in H;
        [discriminate|exfalso; apply N; inversion H; reflexivity].
  - intros (Hu & Hw & Hp). rewrite Hu.
    destruct (Z.to_nat pixel) as [|n] eqn:En; [lia|].
    cbn [area_update_loop]. unfold umod. rewrite Hw. reflexivity.
Qed.

Lemma feed_divides_by_zero_iff_witness :
  area_update_data (mk false 3 4 0 5 0) [0x1234] 1 = Fault DivisionByZero
  /\ area_update_data (mk false 3 4 2 5 0) [0x1234] 1 <> Fault DivisionByZero.
Proof.
  split.
  - apply (proj2 (feed_divides_by_zero_iff (mk false 3 4 0 5 0) [0x1234] 1)).
    split; [reflexivity|]. split; [reflexivity|]. lia.
  - intros H.
    apply (proj1 (feed_divides_by_zero_iff (mk false 3 4 2 5 0) [0x1234] 1)) in H.
    destruct H as (_ & H & _). discriminate H.
Defined.

(** ** What [handleTouch] sends *)

(** X21.  A run of [handleTouch] sends pointer events and the 50 ms delay of a
    wheel step, at most two pointer events in all; it makes no call to the
    surface and sends no key event and no request to the session. *)
Theorem handleTouch_sends_pointer_events_only :
  forall tk s,
    Forall (fun e => is_mouseEvent e = true \/ e = delay 50)
      (snd (handleTouch tk s))
    /\ (List.length (filter is_mouseEvent (snd (handleTouch tk s))) <= 2)%nat.
Proof.
  intros tk s. split.
  - unfold handleTouch, scroll_tick. branch; cbn;
      repeat (constructor; [first [left; reflexivity | right; reflexivity]|]);
      constructor.
  - unfold handleTouch, scroll_tick. branch; cbn; lia.
Qed.
